(** * litreading: alignment, word classification and rate features

    A shallow embedding of [LCSPreprocessor] (src/litreading/preprocessor.py):
    [longest_common_subsequence] (the aligner with its tail trim),
    [get_words_count] (the word classifier), [get_words_length_stats] and the
    per-record part of [compute_numerical_features].

    Python values are embedded as follows.
    - [str] is [string]; one [ascii] stands for one character.
    - [int] is [Z]; list indices are [Z] so that [n - 2] and [l[-1]] keep
      their Python meaning.
    - an exception is the [Raise] case of [result].
    - the rates are exact rationals ([Q]); the word-length statistics, which
      need a square root, are binary64 floats ([PrimFloat]) as in numpy. *)

From Stdlib Require Import String Ascii List ZArith QArith Lia Bool.
From Stdlib Require Import Floats.PrimFloat Numbers.Cyclic.Int63.Uint63.
From Stdlib Require Import Numbers.DecimalString.
Import ListNotations.

Local Open Scope string_scope.
Local Open Scope list_scope.
Local Open Scope Z_scope.

(** ** Exceptions *)

Inductive exn : Type :=
| TypeError (msg : string)
| ValueError (msg : string)
| IndexError.

Inductive result (A : Type) : Type :=
| Ok (a : A)
| Raise (e : exn).
Arguments Ok {A} a.
Arguments Raise {A} e.

Definition bind {A B : Type} (m : result A) (k : A -> result B) : result B :=
  match m with
  | Ok a => k a
  | Raise e => Raise e
  end.

Notation "x <- m ;; k" := (bind m (fun x => k))
  (at level 61, m at next level, right associativity).

(** ** The Python built-ins the preprocessor relies on *)

Module Py.

(** The values a data-frame cell can hold, as far as [isinstance(_, str)]
    tells them apart. *)
Inductive object : Type :=
| Str (s : string)
| Int (z : Z)
| Float (q : Q)
| NoneObj.

Definition is_str (o : object) : bool :=
  match o with
  | Str _ => true
  | _ => false
  end.

(** [s[0]]: the first character, [IndexError] on the empty string. *)
Definition head_char (s : string) : result ascii :=
  match s with
  | EmptyString => Raise IndexError
  | String c _ => Ok c
  end.

Definition len {A : Type} (l : list A) : Z := Z.of_nat (List.length l).

(** [l[i]] with Python's negative indices. *)
Definition getitem {A : Type} (l : list A) (i : Z) : result A :=
  let k := if i <? 0 then i + len l else i in
  if k <? 0 then Raise IndexError
  else match nth_error l (Z.to_nat k) with
       | Some a => Ok a
       | None => Raise IndexError
       end.

(** [l.pop()] on a non-empty list: the list without its last element. *)
Definition pop {A : Type} (l : list A) : list A := removelast l.

(** [s.split(sep)] for a non-empty separator: cut at every occurrence of
    [sep], left to right, keeping empty pieces. [skip] counts the characters
    of a separator that are still to be dropped, [cur] is the piece being
    read, reversed. *)
Fixpoint split_from (sep s : string) (skip : nat) (cur : list ascii)
  : list string :=
  match s with
  | EmptyString => [string_of_list_ascii (rev cur)]
  | String c s' =>
      match skip with
      | S k => split_from sep s' k cur
      | O =>
          if prefix sep s
          then string_of_list_ascii (rev cur)
                 :: split_from sep s' (String.length sep - 1) []
          else split_from sep s' 0 (c :: cur)
      end
  end.

Definition split (s sep : string) : result (list string) :=
  match sep with
  | EmptyString => Raise (ValueError "empty separator")
  | _ => Ok (split_from sep s 0 [])
  end.

(** Python's whitespace for [str.split()] without argument, among the
    code points below 256. *)
Definition is_space (c : ascii) : bool :=
  let n := nat_of_ascii c in
  ((9 <=? n) && (n <=? 13) || (28 <=? n) && (n <=? 32)
   || (n =? 133) || (n =? 160))%nat.

(** [s.split()]: the maximal runs of non-whitespace characters. *)
Fixpoint split_ws_from (s : string) (cur : list ascii) : list string :=
  match s with
  | EmptyString =>
      match cur with
      | [] => []
      | _ => [string_of_list_ascii (rev cur)]
      end
  | String c s' =>
      if is_space c
      then match cur with
           | [] => split_ws_from s' []
           | _ => string_of_list_ascii (rev cur) :: split_ws_from s' []
           end
      else split_ws_from s' (c :: cur)
  end.

Definition split_ws (s : string) : list string := split_ws_from s [].

(** [s.replace(old, "")] for a non-empty [old]: every occurrence of [old],
    found left to right without overlap, is dropped. *)
Fixpoint remove_from (old s : string) (skip : nat) : string :=
  match s with
  | EmptyString => EmptyString
  | String c s' =>
      match skip with
      | S k => remove_from old s' k
      | O =>
          if prefix old s
          then remove_from old s' (String.length old - 1)
          else String c (remove_from old s' 0)
      end
  end.

Definition replace_with_empty (s old : string) : string := remove_from old s 0.

End Py.

(** ** The word classifier: [get_words_count] *)

(** The local variables of the loop. [errors_prompt] and [errors_transcript]
    are the two lists of [errors_dict], under the key [PROMPT_TEXT_COL] (the
    name of the prompt column, a constant of litreading/config.py) and the
    key ["transcript"]. *)
Record locals : Type := mkLocals {
  correct : Z;
  added : Z;
  removed : Z;
  skip_next : Z;
  errors_prompt : list string;
  errors_transcript : list string
}.

Definition locals_init : locals := mkLocals 0 0 0 0 [] [].

Definition tag_space : ascii := " "%char.
Definition tag_plus : ascii := "+"%char.
Definition tag_minus : ascii := "-"%char.
Definition tag_hint : ascii := "?"%char.

(** [while i + j < n and differ_list[i + j][0] == "?": j += 1]. Every round
    increases [j], so [n - (i + j)] rounds are enough: when [fuel] runs out
    the guard [i + j < n] is false. *)
Fixpoint skip_hints (fuel : nat) (differ_list : list string) (n i j : Z)
  : result Z :=
  match fuel with
  | O => Ok j
  | S fuel' =>
      if i + j <? n
      then w <- Py.getitem differ_list (i + j) ;;
           c <- Py.head_char w ;;
           if Ascii.eqb c tag_hint
           then skip_hints fuel' differ_list n i (j + 1)
           else Ok j
      else Ok j
  end.

(** [word[0] == a and differ_list[i + j][0] == b], with the short circuit of
    [and]: the look-ahead is only read when the first test holds. *)
Definition tags_are (differ_list : list string) (c a : ascii) (k : Z)
    (b : ascii) : result bool :=
  if Ascii.eqb c a
  then w <- Py.getitem differ_list k ;;
       c' <- Py.head_char w ;;
       Ok (Ascii.eqb c' b)
  else Ok false.

(** One round of [for i, word in enumerate(differ_list)]. *)
Definition loop_body (differ_list : list string) (n i : Z) (word : string)
    (st : locals) : result locals :=
  if 0 <? skip_next st
  then Ok (mkLocals (correct st) (added st) (removed st) (skip_next st - 1)
             (errors_prompt st) (errors_transcript st))
  else
    c <- Py.head_char word ;;
    if Ascii.eqb c tag_space
    then Ok (mkLocals (correct st + 1) (added st) (removed st) (skip_next st)
               (errors_prompt st) (errors_transcript st))
    else if i <? n - 2
    then
      let added' := if Ascii.eqb c tag_plus then added st + 1 else added st in
      let removed' :=
        if Ascii.eqb c tag_plus then removed st
        else if Ascii.eqb c tag_minus then removed st + 1 else removed st in
      j <- skip_hints (Z.to_nat (n - (i + 1))) differ_list n i 1 ;;
      plus_minus <- tags_are differ_list c tag_plus (i + j) tag_minus ;;
      minus_plus <- tags_are differ_list c tag_minus (i + j) tag_plus ;;
      let skip' := (if plus_minus || minus_plus then 1 else 0) * j in
      if plus_minus
      then other <- Py.getitem differ_list (i + j) ;;
           Ok (mkLocals (correct st) added' removed' skip'
                 (errors_prompt st ++ [Py.replace_with_empty word "+ "])
                 (errors_transcript st ++ [Py.replace_with_empty other "- "]))
      else if minus_plus
      then other <- Py.getitem differ_list (i + j) ;;
           Ok (mkLocals (correct st) added' removed' skip'
                 (errors_prompt st ++ [Py.replace_with_empty word "- "])
                 (errors_transcript st ++ [Py.replace_with_empty other "+ "]))
      else Ok (mkLocals (correct st) added' removed' skip'
                 (errors_prompt st) (errors_transcript st))
    else Ok st.

(** The [for] loop from index [i] on; [rest] is [differ_list[i:]]. *)
Fixpoint loop (differ_list : list string) (n i : Z) (rest : list string)
    (st : locals) : result locals :=
  match rest with
  | [] => Ok st
  | word :: rest' =>
      st' <- loop_body differ_list n i word st ;;
      loop differ_list n (i + 1) rest' st'
  end.

(** The locals when the loop ends. *)
Definition get_words_count_locals (differ_list : list string)
  : result locals :=
  loop differ_list (Py.len differ_list) 0 differ_list locals_init.

(** The dictionary [words_count]. *)
Record words_count : Type := mkWordsCount {
  wc_correct : Z;
  wc_added : Z;
  wc_removed : Z;
  wc_replaced : Z
}.

Definition words_count_of (st : locals) : words_count :=
  mkWordsCount (correct st) (added st) (removed st)
    (Py.len (errors_prompt st)).

Definition get_words_count (differ_list : list string) : result words_count :=
  st <- get_words_count_locals differ_list ;;
  Ok (words_count_of st).

(** ** The aligner: [longest_common_subsequence] *)

(** The tail trim,
    [while differ_list[-1][0] == to_be_removed and len(differ_list) >= 1:
       differ_list.pop()].
    The guard reads [differ_list[-1]] first, so it raises [IndexError] once
    the list is empty. Every round pops one element: with [fuel] the length
    of the list, the list is empty when [fuel] runs out. *)
Fixpoint trim_tail (fuel : nat) (differ_list : list string)
    (to_be_removed : ascii) : result (list string) :=
  match fuel with
  | O => Raise IndexError
  | S fuel' =>
      w <- Py.getitem differ_list (-1) ;;
      c <- Py.head_char w ;;
      if Ascii.eqb c to_be_removed && (1 <=? Py.len differ_list)
      then trim_tail fuel' (Py.pop differ_list) to_be_removed
      else Ok differ_list
  end.

(** The part of [longest_common_subsequence] after the call of the differ. *)
Definition trim (differ_list : list string) : result (list string) :=
  w <- Py.getitem differ_list (-1) ;;
  to_be_removed <- Py.head_char w ;;
  if negb (Ascii.eqb to_be_removed tag_space)
  then trim_tail (List.length differ_list) differ_list to_be_removed
  else Ok differ_list.

Section Aligner.

(** [difflib.Differ().compare] of the Python standard library: from two
    token lists to the lines of the diff, each a tag character, a space and
    a token (or, after a ["?"], a hint). It is not part of the repository
    and stays a parameter. *)
Variable differ_compare : list string -> list string -> list string.

Definition longest_common_subsequence (str_a str_b : Py.object)
    (split_car : string) : result (list string) :=
  match str_a, str_b with
  | Py.Str a, Py.Str b =>
      ta <- Py.split a split_car ;;
      tb <- Py.split b split_car ;;
      trim (differ_compare ta tb)
  | _, _ => Raise (TypeError "Compared strings must be of string type")
  end.

End Aligner.

(** ** Word-length statistics: [get_words_length_stats] *)

Module Np.

(** A Python [int] as a binary64 float; exact below [2^53]. The lengths and
    counts converted here are never negative. *)
Definition float_of_int (z : Z) : float := PrimFloat.of_uint63 (Uint63.of_Z z).

(** [add.reduce] over a float array. numpy adds in sequence up to eight
    elements and pairwise beyond; the two agree whenever the partial sums are
    exact. *)
Definition sum (l : list float) : float := fold_left PrimFloat.add l 0%float.

(** [np.mean] of a list of ints: the float64 sum over the count. *)
Definition mean (l : list Z) : float :=
  (sum (map float_of_int l) / float_of_int (Py.len l))%float.

(** [np.std] of a list of ints: the population standard deviation,
    [sqrt(mean(abs(x - x.mean())**2))]. *)
Definition std (l : list Z) : float :=
  let arrmean := mean l in
  let x := map (fun v => (float_of_int v - arrmean)%float) l in
  let x := map (fun v => (v * v)%float) x in
  PrimFloat.sqrt (sum x / float_of_int (Py.len l))%float.

End Np.

(** [len(word)] of a Python string. *)
Definition str_len (s : string) : Z := Z.of_nat (String.length s).

(** The [0, 0] of the first [return] is the pair of float zeros here. *)
Definition get_words_length_stats (s sep : string) : result (float * float) :=
  s <- Py.split s sep ;;
  if Py.len s =? 0
  then Ok (0%float, 0%float)
  else
    let s := map str_len s in
    let mean := Np.mean s in
    let std := Np.std s in
    Ok (mean, std).

(** ** The feature row: [compute_numerical_features] for one record *)

(** A per-minute rate. pandas divides in floating point, where a zero divisor
    gives an infinity or a NaN instead of an exception: [NonFinite]. *)
Inductive rate : Type :=
| Finite (q : Q)
| NonFinite.

(** [count / (duration / 60)]. *)
Definition per_minute (count : Z) (duration : Q) : rate :=
  let minutes := (duration / 60)%Q in
  if Qeq_bool minutes 0 then NonFinite
  else Finite (inject_Z count / minutes)%Q.

Record features : Type := mkFeatures {
  correct_words_pm : rate;
  added_words_pm : rate;
  removed_words_pm : rate;
  replaced_words_pm : rate;
  asr_word_count_pm : rate;
  prompt_word_length_avg : float;
  prompt_word_length_std : float;
  asr_word_length_avg : float;
  asr_word_length_std : float
}.

(** [x.split()] and [x.split(sep)] are methods of [str]: on this path both
    cells went through [longest_common_subsequence] first, which raises on
    anything else. *)
Definition as_str (o : Py.object) : result string :=
  match o with
  | Py.Str s => Ok s
  | _ => Raise (TypeError "not a string")
  end.

Section FeatureRow.

Variable differ_compare : list string -> list string -> list string.

(** One row of the table: the cells [prompt] and [asr_transcript] and the
    duration in seconds of one record. *)
Definition compute_numerical_features (prompt asr_transcript : Py.object)
    (duration : Q) : result features :=
  differ_list <-
    longest_common_subsequence differ_compare prompt asr_transcript " " ;;
  wc <- get_words_count differ_list ;;
  asr <- as_str asr_transcript ;;
  let asr_word_count := Py.len (Py.split_ws asr) in
  prompt_s <- as_str prompt ;;
  prompt_stats <- get_words_length_stats prompt_s " " ;;
  asr_stats <- get_words_length_stats asr " " ;;
  Ok (mkFeatures
        (per_minute (wc_correct wc) duration)
        (per_minute (wc_added wc) duration)
        (per_minute (wc_removed wc) duration)
        (per_minute (wc_replaced wc) duration)
        (per_minute asr_word_count duration)
        (fst prompt_stats) (snd prompt_stats)
        (fst asr_stats) (snd asr_stats)).

End FeatureRow.

(** * Vocabulary of the properties *)

(** ** Lines and scripts *)

(** The tag of a line is its first character. *)
Definition has_tag (c : ascii) (w : string) : Prop := Py.head_char w = Ok c.

Definition tagged (w : string) : Prop := w <> EmptyString.

Definition has_tagb (c : ascii) (w : string) : bool :=
  match w with
  | EmptyString => false
  | String c' _ => Ascii.eqb c' c
  end.

(** ** The walk of the classifier *)

(** [len(errors_dict[PROMPT_TEXT_COL])], the count returned as replaced. *)
Definition replaced (st : locals) : Z := Py.len (errors_prompt st).

Definition total (st : locals) : Z :=
  correct st + added st + removed st + replaced st.

(** What holds before round [i]: a pending skip is the only way for the
    counts to be one ahead of the index, and the skip ends inside the list. *)
Record walk_inv (n i : Z) (st : locals) : Prop := mkWalkInv {
  inv_correct : 0 <= correct st;
  inv_added : 0 <= added st;
  inv_removed : 0 <= removed st;
  inv_skip : 0 <= skip_next st;
  inv_pairs : Py.len (errors_prompt st) = Py.len (errors_transcript st);
  inv_skip_end : i + skip_next st <= n;
  inv_total : total st <= i + (if 0 <? skip_next st then 1 else 0)
}.

(** Every line has a first character. *)
Definition all_tagged (differ_list : list string) : bool :=
  forallb (fun w => negb (String.eqb w EmptyString)) differ_list.

(** No hint line is directly followed by another hint line. *)
Fixpoint no_adjacent_hints (differ_list : list string) : bool :=
  match differ_list with
  | w1 :: ((w2 :: _) as rest) =>
      negb (has_tagb tag_hint w1 && has_tagb tag_hint w2)
      && no_adjacent_hints rest
  | _ => true
  end.

Definition with_correct (st : locals) (c : Z) : locals :=
  mkLocals c (added st) (removed st) (skip_next st)
    (errors_prompt st) (errors_transcript st).

Definition with_skip (st : locals) (s : Z) : locals :=
  mkLocals (correct st) (added st) (removed st) s
    (errors_prompt st) (errors_transcript st).

(** The line [other] at [i + j] is the first one after [i] that is not a
    hint. *)
Definition next_op (differ_list : list string) (i j : Z) (other : string)
  : Prop :=
  1 <= j
  /\ (forall k, 1 <= k < j ->
        exists h, Py.getitem differ_list (i + k) = Ok h /\ has_tag tag_hint h)
  /\ Py.getitem differ_list (i + j) = Ok other
  /\ tagged other
  /\ ~ has_tag tag_hint other.

(** The state after the round that opens a pair at [word]: its first line is
    counted as added or removed, the pair is appended, and [j] rounds are
    skipped. *)
Definition pair_state (st : locals) (word other : string) (j : Z) : locals :=
  if has_tagb tag_plus word
  then mkLocals (correct st) (added st + 1) (removed st) j
         (errors_prompt st ++ [Py.replace_with_empty word "+ "])
         (errors_transcript st ++ [Py.replace_with_empty other "- "])
  else mkLocals (correct st) (added st) (removed st + 1) j
         (errors_prompt st ++ [Py.replace_with_empty word "- "])
         (errors_transcript st ++ [Py.replace_with_empty other "+ "]).

(** ** What the differ returns *)

(** The three kinds of lines of [difflib.Differ] that carry a token. *)
Definition match_line (token : string) : string := ("  " ++ token)%string.
Definition delete_line (token : string) : string := ("- " ++ token)%string.
Definition insert_line (token : string) : string := ("+ " ++ token)%string.

(** The token of a line: what follows the tag and the space. *)
Definition line_token (w : string) : string :=
  match w with
  | String _ (String _ token) => token
  | _ => EmptyString
  end.

Definition on_ref_side (w : string) : bool :=
  has_tagb tag_space w || has_tagb tag_minus w.

Definition on_hyp_side (w : string) : bool :=
  has_tagb tag_space w || has_tagb tag_plus w.

Definition ref_side (differ_list : list string) : list string :=
  map line_token (filter on_ref_side differ_list).

Definition hyp_side (differ_list : list string) : list string :=
  map line_token (filter on_hyp_side differ_list).

(** The contract of a diff of [a] against [b], as far as the trim depends on
    it: every line has a tag, the lines tagged [" "] or ["-"] spell [a] and
    the lines tagged [" "] or ["+"] spell [b]. *)
Definition edit_script (a b differ_list : list string) : Prop :=
  all_tagged differ_list = true
  /\ ref_side differ_list = a
  /\ hyp_side differ_list = b.

Definition count_matches (differ_list : list string) : nat :=
  length (filter (has_tagb tag_space) differ_list).

(** A differ by longest common subsequence that only emits match, delete and
    insert lines: equal heads are matched, otherwise the better of deleting
    the head of [a] and inserting the head of [b] is kept. It is one function
    that meets [edit_script]. *)
Fixpoint lcs_differ (a b : list string) : list string :=
  match a with
  | [] => map insert_line b
  | x :: a' =>
      (fix inner (b : list string) : list string :=
         match b with
         | [] => map delete_line a
         | y :: b' =>
             if String.eqb x y
             then match_line x :: lcs_differ a' b'
             else
               let del := delete_line x :: lcs_differ a' b in
               let ins := insert_line y :: inner b' in
               if (count_matches ins <=? count_matches del)%nat
               then del else ins
         end) b
  end.

(** ** Scripts and rates of the examples *)

(** The script of reference ["a b c d e f g h"] against hypothesis
    ["a b x d e f g h"]. *)
Definition scenario2_script : list string :=
  ["  a"; "  b"; "- c"; "+ x"; "  d"; "  e"; "  f"; "  g"; "  h"].

(** A delete, an insert and a delete in a row: two overlapping candidate
    pairs. *)
Definition overlap_script : list string :=
  ["- a"; "+ b"; "- c"; "  d"; "  e"].

(** The script of reference ["a c1 c2 d e f"] against hypothesis
    ["a x d e f"]: a differ that writes the shorter side of a replaced block
    first puts the insert before the two deletes. *)
Definition insert_first_script : list string :=
  ["  a"; "+ x"; "- c1"; "- c2"; "  d"; "  e"; "  f"].

(** The rate [r] is finite and equal to the count [z]. *)
Definition rate_is (r : rate) (z : Z) : Prop :=
  match r with
  | Finite q => (q == inject_Z z)%Q
  | NonFinite => False
  end.

(** ** More vocabulary for the walk *)

(** The number of lines with tag [c] among the first [q] lines. *)
Definition tagged_before (c : ascii) (differ_list : list string) (q : Z) : Z :=
  Py.len (filter (has_tagb c) (firstn (Z.to_nat q) differ_list)).

(** What the walk knows before round [i] about the lines up to the frontier
    [i + skip_next]: every one of them has been read, [correct] counts the
    matches among them, and [added], [removed] count some of the inserts and
    deletes that sit below [len(differ_list) - 2]. *)
Record walk_facts (differ_list : list string) (i : Z) (st : locals)
  : Prop := mkWalkFacts {
  wf_skip : 0 <= skip_next st;
  wf_front : i + skip_next st <= Py.len differ_list;
  wf_correct :
    correct st = tagged_before tag_space differ_list (i + skip_next st);
  wf_added :
    0 <= added st <= tagged_before tag_plus differ_list (i + skip_next st);
  wf_removed :
    0 <= removed st <= tagged_before tag_minus differ_list (i + skip_next st);
  wf_replaced : Py.len (errors_prompt st) <= added st + removed st;
  wf_bound :
    added st + removed st <= Z.max 0 (Z.min i (Py.len differ_list - 2));
  wf_read :
    forall k, 0 <= k < i + skip_next st ->
      exists w, Py.getitem differ_list k = Ok w /\ tagged w
}.

(** ** More vocabulary for the features *)




(** The only whitespace of [s] is the space character. *)
Fixpoint only_blank_space (s : string) : bool :=
  match s with
  | EmptyString => true
  | String c s' =>
      (negb (Py.is_space c) || Ascii.eqb c " "%char) && only_blank_space s'
  end.

Definition non_empty (token : string) : bool :=
  negb (String.eqb token EmptyString).

(** ** The earlier word count: [Dataset.count_words_correct]
    (src/literacy_score/data_cleaning.py) *)

(** [for word in differ_list: if word[0] == " ": counter += 1]. *)
Fixpoint count_loop (differ_list : list string) (counter : Z) : result Z :=
  match differ_list with
  | [] => Ok counter
  | word :: rest =>
      c <- Py.head_char word ;;
      count_loop rest (if Ascii.eqb c tag_space then counter + 1 else counter)
  end.

Section CompareText.

(** [difflib.Differ().compare], as for the aligner, and the built-in [str],
    of which only the value on a string is used below. *)
Variable differ_compare : list string -> list string -> list string.
Variable py_str : Py.object -> string.

(** The local function [compare_text] of [count_words_correct]. *)
Definition compare_text (a b : Py.object) (split_car : string) : result Z :=
  ta <- Py.split (py_str a) split_car ;;
  tb <- Py.split (py_str b) split_car ;;
  count_loop (differ_compare ta tb) 0.

End CompareText.

(** ** The earlier text clean-up: [Dataset.__preprocess_data__]
    (src/literacy_score/data_cleaning.py) *)

Module PyStr.

(** A character-wise rewriting of a string. *)
Fixpoint map_chars (f : ascii -> ascii) (s : string) : string :=
  match s with
  | EmptyString => EmptyString
  | String c s' => String (f c) (map_chars f s')
  end.

Fixpoint all_chars (p : ascii -> bool) (s : string) : bool :=
  match s with
  | EmptyString => true
  | String c s' => p c && all_chars p s'
  end.

(** The upper-case letters among the code points below 256: [A]-[Z] and the
    accented capitals 192-222 without the multiplication sign 215. *)
Definition is_upper (c : ascii) : bool :=
  let n := nat_of_ascii c in
  ((65 <=? n) && (n <=? 90)
   || (192 <=? n) && (n <=? 222) && negb (n =? 215))%nat.

Definition lower_char (c : ascii) : ascii :=
  if is_upper c then ascii_of_nat (nat_of_ascii c + 32) else c.

(** [s.lower()]. *)
Definition lower (s : string) : string := map_chars lower_char s.

(** Membership in [string.punctuation]. *)
Definition is_punctuation (c : ascii) : bool :=
  let n := nat_of_ascii c in
  ((33 <=? n) && (n <=? 47) || (58 <=? n) && (n <=? 64)
   || (91 <=? n) && (n <=? 96) || (123 <=? n) && (n <=? 126))%nat.

(** [s.translate(str.maketrans(string.punctuation,
    ' ' * len(string.punctuation)))]. *)
Definition translate_punctuation (s : string) : string :=
  map_chars (fun c => if is_punctuation c then " "%char else c) s.

(** [sep.join(l)]. *)
Fixpoint join (sep : string) (l : list string) : string :=
  match l with
  | [] => EmptyString
  | [w] => w
  | w :: rest => (w ++ sep ++ join sep rest)%string
  end.

End PyStr.

(** [x.str.split().str.join(' ')] on one cell. *)
Definition squeeze_spaces (s : string) : string :=
  PyStr.join " " (Py.split_ws s).

(** The three text cells of a row of [df_raw]. *)
Record text_row : Type := mkTextRow {
  prompt : string;
  human_transcript : string;
  asr_transcript : string
}.

Section DatasetPreprocess.

(** [" ".join([e['text'] for e in ast.literal_eval(x)])] needs Python's
    parser: the texts of the segments written in a cell are a parameter. *)
Variable segment_texts : string -> list string.

(** [__preprocess_data__] on one row. *)
Definition preprocess_row (lowercase punctuation_free
    asr_string_recomposition : bool) (row : text_row) : text_row :=
  let prompt := prompt row in
  let human_transcript := human_transcript row in
  let asr_transcript := asr_transcript row in
  let asr_transcript :=
    if asr_string_recomposition
    then PyStr.join " " (segment_texts asr_transcript)
    else asr_transcript in
  let prompt := if lowercase then PyStr.lower prompt else prompt in
  let human_transcript :=
    if lowercase then PyStr.lower human_transcript else human_transcript in
  let asr_transcript :=
    if lowercase then PyStr.lower asr_transcript else asr_transcript in
  if punctuation_free
  then
    let prompt := PyStr.translate_punctuation prompt in
    let human_transcript := PyStr.translate_punctuation human_transcript in
    let human_transcript := squeeze_spaces human_transcript in
    let asr_transcript := PyStr.translate_punctuation asr_transcript in
    let asr_transcript := squeeze_spaces asr_transcript in
    mkTextRow prompt human_transcript asr_transcript
  else mkTextRow prompt human_transcript asr_transcript.

End DatasetPreprocess.

(** A word: not empty and without whitespace. *)
Definition is_word (w : string) : bool :=
  non_empty w && PyStr.all_chars (fun c => negb (Py.is_space c)) w.

(** The transcript has no punctuation and is in the normal form of
    [squeeze_spaces]. *)
Definition clean_transcript (t : string) : Prop :=
  PyStr.all_chars (fun c => negb (PyStr.is_punctuation c)) t = true
  /\ squeeze_spaces t = t.

(** ** The steps of [LCSPreprocessor] and their messages *)

(** The four flags of [__init__], in the order of the dictionary
    [_preprocesssing_steps]. *)
Record step_flags : Type := mkStepFlags {
  asr_string_recomposition : bool;
  to_lowercase : bool;
  remove_punctuation : bool;
  convert_num2words : bool
}.

(** [self.preprocessing_steps.items()]. *)
Definition preprocessing_steps (flags : step_flags) : list (string * bool) :=
  [("asr_string_recomposition", asr_string_recomposition flags);
   ("to_lowercase", to_lowercase flags);
   ("remove_punctuation", remove_punctuation flags);
   ("convert_num2words", convert_num2words flags)].

(** [_init_steps]: the value of [self._steps]. *)
Definition init_steps (flags : step_flags) : list string :=
  map fst (filter snd (preprocessing_steps flags))
  ++ ["compute_numerical_features"].

(** [enumerate(l)], from [k] on. *)
Fixpoint enumerate_from {A : Type} (k : Z) (l : list A) : list (Z * A) :=
  match l with
  | [] => []
  | a :: l' => (k, a) :: enumerate_from (k + 1) l'
  end.

(** What an instance holds after [__init__]; [_steps] is computed there and
    not assigned again. *)
Record preprocessor : Type := mkPreprocessor {
  flags : step_flags;
  grade_mode : bool;
  steps : list string
}.

Definition new_preprocessor (fl : step_flags) (grade : bool) : preprocessor :=
  mkPreprocessor fl grade (init_steps fl).

(** What the methods change: the iterator [self.__steps_iter] ([None] after
    [__init__]), whether loguru still passes the messages of this module,
    and the step messages it has passed. *)
Record world : Type := mkWorld {
  steps_iter : option (list (Z * string));
  logger_enabled : bool;
  sink : list string
}.

Definition world_init (enabled : bool) (messages : list string) : world :=
  mkWorld None enabled messages.

(** [str(n)] for an integer that is not negative. *)
Definition decimal (n : Z) : string := NilEmpty.string_of_int (Z.to_int n).

(** The message of [_compute_and_log_step_msg], for an instance of the class
    itself. *)
Definition step_msg (self : preprocessor) (step_no : Z) (step_name : string)
  : string :=
  ("[LCSPreprocessor] (step " ++ decimal (step_no + 1) ++ " of "
   ++ decimal (Py.len (steps self)) ++ "): " ++ step_name)%string.

(** [logger.info(msg)] and [logger.disable("litreading.preprocessor")]. *)
Definition logger_info (msg : string) (w : world) : world :=
  if logger_enabled w
  then mkWorld (steps_iter w) true (sink w ++ [msg])
  else w.

Definition logger_disable (w : world) : world :=
  mkWorld (steps_iter w) false (sink w).

Section Steps.

(** Exceptions of the code outside the repository (pandas, the text
    functions). *)
Variable ext_exn : Type.

Inductive raised : Type :=
| NotAnIterator
| StopIteration
| External (e : ext_exn).

Inductive outcome (A : Type) : Type :=
| Done (a : A)
| Raised (r : raised).
Arguments Done {A} a.
Arguments Raised {A} r.

(** The columns of litreading/config.py, and pandas: a frame, the selection
    [df[cols]], the assignment [df[cols] = value], [applymap], [fillna(" ")]
    and the feature table that [compute_numerical_features] builds from the
    frame. Each returns its value ([inl]) or raises ([inr]). *)
Variable PROMPT_TEXT_COL ASR_TRANSCRIPT_COL HUMAN_TRANSCRIPT_COL
  DURATION_COL : string.
Variable DataFrame : Type.
Variable df_getitem : DataFrame -> list string -> DataFrame + ext_exn.
Variable df_setitem :
  DataFrame -> list string -> DataFrame -> DataFrame + ext_exn.
Variable applymap : (Py.object -> Py.object) -> DataFrame -> DataFrame + ext_exn.
Variable fillna_blank : DataFrame -> DataFrame.
Variable feature_table :
  DataFrame -> string -> string -> string -> DataFrame + ext_exn.

(** The text functions of litreading/utils/text.py and the built-in [str]. *)
Variable recompose_asr_string_from_dict numbers_to_literals
  remove_punctuation_from_string : Py.object -> Py.object.
Variable py_str : Py.object -> string.

Definition step (A : Type) : Type := world -> outcome A * world.

Definition step_bind {A B : Type} (m : step A) (k : A -> step B) : step B :=
  fun w =>
    match m w with
    | (Done a, w') => k a w'
    | (Raised r, w') => (Raised r, w')
    end.

Definition step_ret {A : Type} (a : A) : step A := fun w => (Done a, w).

Definition step_lift {A : Type} (o : A + ext_exn) : step A :=
  fun w =>
    match o with
    | inl a => (Done a, w)
    | inr e => (Raised (External e), w)
    end.

(** [_compute_and_log_step_msg]: [next] on the iterator, then the message
    when [verbose]. *)
Definition compute_and_log_step_msg (self : preprocessor) (verbose : bool)
  : step unit :=
  fun w =>
    match steps_iter w with
    | None => (Raised NotAnIterator, w)
    | Some [] => (Raised StopIteration, w)
    | Some ((step_no, step_name) :: rest) =>
        let w := mkWorld (Some rest) (logger_enabled w) (sink w) in
        if verbose
        then (Done tt, logger_info (step_msg self step_no step_name) w)
        else (Done tt, w)
    end.

(** One [if flag: ...] block of [preprocess_text]. *)
Definition text_step (self : preprocessor) (verbose flag : bool)
    (f : Py.object -> Py.object) (data : DataFrame) : step DataFrame :=
  if flag
  then step_bind (compute_and_log_step_msg self verbose)
         (fun _ => step_lift (applymap f data))
  else step_ret data.

(** [lambda x: str(x).lower()]. *)
Definition str_lower (x : Py.object) : Py.object :=
  Py.Str (PyStr.lower (py_str x)).

(** [preprocess_text]; its four flags are arguments of its own. *)
Definition preprocess_text (self : preprocessor) (data : DataFrame)
    (to_lowercase remove_punctuation convert_num2words
     asr_string_recomposition verbose : bool) : step DataFrame :=
  step_bind (text_step self verbose asr_string_recomposition
               recompose_asr_string_from_dict data) (fun data =>
  step_bind (text_step self verbose to_lowercase str_lower data) (fun data =>
  step_bind (text_step self verbose convert_num2words numbers_to_literals
               data) (fun data =>
  step_bind (text_step self verbose remove_punctuation
               remove_punctuation_from_string data) (fun data =>
  step_ret (fillna_blank data))))).

(** [text_cols]: [+=] with a string on the right adds its characters one
    by one. *)
Definition text_cols (self : preprocessor) : list string :=
  let text_cols := [PROMPT_TEXT_COL; ASR_TRANSCRIPT_COL] in
  if grade_mode self
  then text_cols
       ++ map (fun c => String c EmptyString)
            (list_ascii_of_string HUMAN_TRANSCRIPT_COL)
  else text_cols.

(** [self.__steps_iter = iter(enumerate(self._steps))]. *)
Definition set_steps_iter (self : preprocessor) : step unit :=
  fun w =>
    (Done tt,
     mkWorld (Some (enumerate_from 0 (steps self))) (logger_enabled w)
       (sink w)).

(** [if verbose is False: logger.disable("litreading.preprocessor")]. *)
Definition disable_unless (verbose : bool) : step unit :=
  fun w => (Done tt, if verbose then w else logger_disable w).

(** [preprocess_data], from the selection of the text columns on. *)
Definition preprocess_data_body (self : preprocessor) (df : DataFrame)
    (verbose : bool) : step DataFrame :=
  let data_ := df in
  step_bind (step_lift (df_getitem data_ (text_cols self))) (fun selected =>
  step_bind (preprocess_text self selected
               (to_lowercase (flags self)) (remove_punctuation (flags self))
               (convert_num2words (flags self))
               (asr_string_recomposition (flags self)) verbose)
    (fun processed =>
  step_bind (step_lift (df_setitem data_ (text_cols self) processed))
    (fun data_ =>
  step_bind (compute_and_log_step_msg self verbose) (fun _ =>
  step_bind (step_lift (feature_table data_ PROMPT_TEXT_COL
                          ASR_TRANSCRIPT_COL DURATION_COL))
    (fun features =>
  step_bind (disable_unless verbose) (fun _ =>
  step_ret features)))))).

(** [preprocess_data]. *)
Definition preprocess_data (self : preprocessor) (df : DataFrame)
    (verbose : bool) : step DataFrame :=
  step_bind (set_steps_iter self) (fun _ =>
  step_bind (disable_unless verbose) (fun _ =>
  preprocess_data_body self df verbose)).

End Steps.

Arguments NotAnIterator {ext_exn}.
Arguments StopIteration {ext_exn}.
Arguments External {ext_exn} e.
Arguments Done {ext_exn A} a.
Arguments Raised {ext_exn A} r.

(** The messages of the pairs [it] of the iterator. *)
Definition step_msgs (self : preprocessor) (it : list (Z * string))
  : list string :=
  map (fun p => step_msg self (fst p) (snd p)) it.




(** A computation that, started with the logger off, leaves it off and
    passes no message, whether it returns or raises. *)
Definition quiet {ext_exn A : Type} (m : step ext_exn A) : Prop :=
  forall w,
    logger_enabled w = false ->
    logger_enabled (snd (m w)) = false /\ sink (snd (m w)) = sink w.

(** The number of [True] among the flags given to [preprocess_text]. *)
Definition blocks_run (to_lowercase remove_punctuation convert_num2words
    asr_string_recomposition : bool) : nat :=
  (if asr_string_recomposition then 1 else 0)
  + ((if to_lowercase then 1 else 0)
     + ((if convert_num2words then 1 else 0)
        + ((if remove_punctuation then 1 else 0) + 0))).

(** * Properties *)

(** ** Lists and lines *)

Lemma has_tagb_spec (c : ascii) (w : string) :
  has_tagb c w = true <-> has_tag c w.
Proof.
  unfold has_tag; destruct w as [|c' w]; simpl.
  - split; discriminate.
  - rewrite Ascii.eqb_eq. split; [intros -> | intros [= ->]]; reflexivity.
Qed.

Lemma tagged_head (w : string) : tagged w -> exists c, has_tag c w.
Proof.
  destruct w as [|c w]; [intros H; now elim H | intros _; now exists c].
Qed.

Lemma has_tag_inj (c c' : ascii) (w : string) :
  has_tag c w -> has_tag c' w -> c = c'.
Proof. unfold has_tag; intros H H'; congruence. Qed.

Lemma len_app {A : Type} (l l' : list A) :
  Py.len (l ++ l') = Py.len l + Py.len l'.
Proof. unfold Py.len; rewrite length_app; lia. Qed.

Lemma len_nonneg {A : Type} (l : list A) : 0 <= Py.len l.
Proof. unfold Py.len; lia. Qed.

Lemma len_cons {A : Type} (a : A) (l : list A) :
  Py.len (a :: l) = Py.len l + 1.
Proof. unfold Py.len; simpl length; lia. Qed.

Lemma getitem_nonneg {A : Type} (l : list A) (i : Z) :
  0 <= i ->
  Py.getitem l i = match nth_error l (Z.to_nat i) with
                   | Some a => Ok a
                   | None => Raise IndexError
                   end.
Proof.
  intros Hi; unfold Py.getitem.
  destruct (i <? 0) eqn:E; [apply Z.ltb_lt in E; lia |].
  now rewrite E.
Qed.

Lemma getitem_ok_nonneg {A : Type} (l : list A) (i : Z) (a : A) :
  0 <= i -> Py.getitem l i = Ok a ->
  i < Py.len l /\ nth_error l (Z.to_nat i) = Some a.
Proof.
  intros Hi; rewrite getitem_nonneg by assumption.
  destruct (nth_error l (Z.to_nat i)) eqn:E; [intros [= ->] | discriminate].
  split; [| reflexivity].
  assert (Z.to_nat i < length l)%nat by (apply nth_error_Some; congruence).
  unfold Py.len; lia.
Qed.

Lemma getitem_app_mid {A : Type} (pre : list A) (a : A) (post : list A) :
  Py.getitem (pre ++ a :: post) (Py.len pre) = Ok a.
Proof.
  rewrite getitem_nonneg by apply len_nonneg.
  unfold Py.len; rewrite Nat2Z.id, nth_error_app2 by lia.
  now rewrite Nat.sub_diag.
Qed.

Lemma getitem_last {A : Type} (l : list A) (a : A) :
  Py.getitem (l ++ [a]) (-1) = Ok a.
Proof.
  unfold Py.getitem. change (-1 <? 0) with true. cbv iota zeta.
  assert (E : -1 + Py.len (l ++ [a]) = Py.len l)
    by (rewrite len_app, len_cons; change (Py.len (@nil A)) with 0; lia).
  rewrite E.
  destruct (Py.len l <? 0) eqn:E'.
  - apply Z.ltb_lt in E'. pose proof (len_nonneg l). lia.
  - unfold Py.len. rewrite Nat2Z.id, nth_error_app2 by lia.
    now rewrite Nat.sub_diag.
Qed.

Lemma getitem_nil {A : Type} (i : Z) : Py.getitem (@nil A) i = Raise IndexError.
Proof.
  unfold Py.getitem. change (Py.len (@nil A)) with 0.
  destruct (i <? 0) eqn:E.
  - apply Z.ltb_lt in E. destruct (i + 0 <? 0) eqn:E'; [reflexivity |].
    apply Z.ltb_ge in E'; lia.
  - rewrite E. now destruct (Z.to_nat i).
Qed.

Lemma bind_ok {A B : Type} (m : result A) (k : A -> result B) (b : B) :
  bind m k = Ok b -> exists a, m = Ok a /\ k a = Ok b.
Proof. destruct m as [a|e]; simpl; [now exists a | discriminate]. Qed.

(** ** The classifier: look-ahead *)

Lemma skip_hints_ge (fuel : nat) (dl : list string) (n i j0 j : Z) :
  skip_hints fuel dl n i j0 = Ok j -> j0 <= j.
Proof.
  revert j0; induction fuel as [|fuel IH]; intros j0; simpl.
  - intros [= ->]; lia.
  - destruct (i + j0 <? n); [| intros [= ->]; lia].
    destruct (Py.getitem dl (i + j0)) as [w|]; simpl; [| discriminate].
    destruct (Py.head_char w) as [c|]; simpl; [| discriminate].
    destruct (Ascii.eqb c tag_hint); [| intros [= ->]; lia].
    intros H; apply IH in H; lia.
Qed.

Lemma tags_are_true (dl : list string) (c a b : ascii) (k : Z) :
  tags_are dl c a k b = Ok true ->
  c = a /\ exists w, Py.getitem dl k = Ok w /\ has_tag b w.
Proof.
  unfold tags_are. destruct (Ascii.eqb c a) eqn:E; [| discriminate].
  apply Ascii.eqb_eq in E.
  destruct (Py.getitem dl k) as [w|]; simpl; [| discriminate].
  destruct (Py.head_char w) as [c'|] eqn:Hc; simpl; [| discriminate].
  intros [= H]. apply Ascii.eqb_eq in H; subst.
  split; [reflexivity | now exists w].
Qed.

(** The fuel of [skip_hints] never cuts the [while] loop short: more fuel
    gives the same result. *)
Lemma skip_hints_fuel (fuel : nat) (dl : list string) (n i j : Z) :
  (Z.to_nat (n - (i + j)) <= fuel)%nat ->
  skip_hints fuel dl n i j = skip_hints (Z.to_nat (n - (i + j))) dl n i j.
Proof.
  revert j; induction fuel as [|fuel IH]; intros j Hf.
  - now replace (Z.to_nat (n - (i + j))) with 0%nat by lia.
  - destruct (i + j <? n) eqn:E.
    + apply Z.ltb_lt in E.
      replace (Z.to_nat (n - (i + j)))
        with (S (Z.to_nat (n - (i + (j + 1))))) by lia.
      cbn [skip_hints]. replace (i + j <? n) with true
        by (symmetry; apply Z.ltb_lt; lia).
      destruct (Py.getitem dl (i + j)) as [w|]; [| reflexivity]. cbn [bind].
      destruct (Py.head_char w) as [c|]; [| reflexivity]. cbn [bind].
      destruct (Ascii.eqb c tag_hint); [| reflexivity].
      apply IH. lia.
    + apply Z.ltb_ge in E.
      replace (Z.to_nat (n - (i + j))) with 0%nat by lia.
      cbn [skip_hints]. replace (i + j <? n) with false
        by (symmetry; apply Z.ltb_ge; lia).
      reflexivity.
Qed.

(** Likewise for the fuel of [trim_tail]. *)
Lemma trim_tail_fuel (fuel : nat) (dl : list string) (t : ascii) :
  (length dl <= fuel)%nat ->
  trim_tail fuel dl t = trim_tail (length dl) dl t.
Proof.
  revert dl; induction fuel as [|fuel IH]; intros dl Hf.
  - now replace (length dl) with 0%nat by lia.
  - destruct dl as [|a dl'] using rev_ind.
    + cbn [length trim_tail]. now rewrite getitem_nil.
    + clear IHdl'. rewrite length_app, Nat.add_comm in *.
      cbn [length Nat.add] in *. cbn [trim_tail].
      rewrite getitem_last; cbn [bind].
      destruct (Py.head_char a) as [c|]; [| reflexivity]. cbn [bind].
      destruct (Ascii.eqb c t && (1 <=? Py.len (dl' ++ [a])));
        [| reflexivity].
      unfold Py.pop. rewrite removelast_last. apply IH. lia.
Qed.

(** ** The classifier: the invariant of the walk *)

(** Closes the fields of [walk_inv] for an explicit next state. *)
Ltac walk_inv_tac :=
  constructor; unfold total, replaced;
  cbn [correct added removed skip_next errors_prompt errors_transcript];
  rewrite ?len_app, ?len_cons; change (Py.len (@nil string)) with 0;
  try match goal with
      | |- context [match ?j with 0 => _ | Z.pos _ => _ | Z.neg _ => _ end] =>
          is_var j; destruct j; try (exfalso; lia); cbn [Z.ltb Z.compare]
      end;
  try match goal with
      | |- context [if 0 <? ?x then _ else _] =>
          let E := fresh "E" in
          destruct (0 <? x) eqn:E;
          [apply Z.ltb_lt in E | apply Z.ltb_ge in E]
      end;
  lia.

Section Walk.

Variable differ_list : list string.
Let n := Py.len differ_list.

Lemma loop_body_inv (i : Z) (word : string) (st st' : locals) :
  0 <= i < n ->
  walk_inv n i st ->
  loop_body differ_list n i word st = Ok st' ->
  walk_inv n (i + 1) st'.
Proof.
  intros Hi [Hc Ha Hr Hs Hp He Ht]. unfold total, replaced in Ht.
  unfold loop_body.
  destruct (0 <? skip_next st) eqn:Eskip.
  { intros [= <-]. apply Z.ltb_lt in Eskip. walk_inv_tac. }
  apply Z.ltb_ge in Eskip.
  assert (Hs0 : skip_next st = 0) by lia. clear Eskip.
  intros H. apply bind_ok in H as (c & _ & H).
  destruct (Ascii.eqb c tag_space).
  { injection H as <-. walk_inv_tac. }
  destruct (i <? n - 2).
  2:{ injection H as <-. walk_inv_tac. }
  apply bind_ok in H as (j & Hj & H). apply skip_hints_ge in Hj.
  apply bind_ok in H as (pm & Hpm & H).
  apply bind_ok in H as (mp & Hmp & H).
  destruct pm.
  { apply tags_are_true in Hpm as (-> & w & Hw & _).
    rewrite Hw in H. cbn [bind orb] in H. injection H as <-.
    apply getitem_ok_nonneg in Hw as [Hw _]; [| lia]. fold n in Hw.
    change (Ascii.eqb tag_plus tag_plus) with true. walk_inv_tac. }
  destruct mp.
  { apply tags_are_true in Hmp as (-> & w & Hw & _).
    rewrite Hw in H. cbn [bind orb] in H. injection H as <-.
    apply getitem_ok_nonneg in Hw as [Hw _]; [| lia]. fold n in Hw.
    change (Ascii.eqb tag_minus tag_plus) with false.
    change (Ascii.eqb tag_minus tag_minus) with true. walk_inv_tac. }
  cbn [orb] in H. injection H as <-.
  destruct (Ascii.eqb c tag_plus), (Ascii.eqb c tag_minus); walk_inv_tac.
Qed.

Lemma loop_inv (rest : list string) (i : Z) (st st' : locals) :
  0 <= i ->
  i + Py.len rest = n ->
  walk_inv n i st ->
  loop differ_list n i rest st = Ok st' ->
  walk_inv n n st'.
Proof.
  revert i st; induction rest as [|word rest IH]; intros i st Hi Hn Hinv.
  - simpl. intros [= <-]. change (Py.len (@nil string)) with 0 in Hn.
    now replace i with n in Hinv by lia.
  - simpl. rewrite len_cons in Hn. pose proof (len_nonneg rest) as Hr.
    intros H. apply bind_ok in H as (st1 & Hbody & H).
    apply (IH (i + 1) st1); try lia; [| assumption].
    apply (loop_body_inv i word st); [lia | assumption | assumption].
Qed.

End Walk.

Lemma walk_inv_init (n : Z) : 0 <= n -> walk_inv n 0 locals_init.
Proof. intros Hn; unfold locals_init; walk_inv_tac. Qed.

(** ** The classifier: totality of the walk *)

Lemma all_tagged_nth (dl : list string) (k : nat) (w : string) :
  all_tagged dl = true -> nth_error dl k = Some w -> tagged w.
Proof.
  unfold all_tagged; rewrite forallb_forall; intros H Hk.
  apply nth_error_In in Hk. apply H in Hk.
  intros ->. discriminate.
Qed.

Lemma no_adjacent_hints_nth (dl : list string) (k : nat) (w1 w2 : string) :
  no_adjacent_hints dl = true ->
  nth_error dl k = Some w1 -> nth_error dl (S k) = Some w2 ->
  has_tagb tag_hint w1 = true -> has_tagb tag_hint w2 = false.
Proof.
  revert k; induction dl as [|a dl IH]; intros k H H1 H2 Hh.
  - destruct k; discriminate.
  - destruct dl as [|b dl]; [destruct k; discriminate |].
    cbn [no_adjacent_hints] in H. apply andb_true_iff in H as [Hab H].
    destruct k as [|k].
    + injection H1 as ->. injection H2 as ->.
      rewrite Hh in Hab. now destruct (has_tagb tag_hint w2).
    + now apply (IH k).
Qed.

Lemma getitem_in_range {A : Type} (l : list A) (k : Z) :
  0 <= k < Py.len l ->
  exists a, Py.getitem l k = Ok a /\ nth_error l (Z.to_nat k) = Some a.
Proof.
  intros Hk. rewrite getitem_nonneg by lia.
  destruct (nth_error l (Z.to_nat k)) as [a|] eqn:E; [now exists a |].
  apply nth_error_None in E. unfold Py.len in Hk. lia.
Qed.

Lemma getitem_out_of_range {A : Type} (l : list A) (k : Z) :
  Py.len l <= k -> Py.getitem l k = Raise IndexError.
Proof.
  intros Hk. pose proof (len_nonneg l). rewrite getitem_nonneg by lia.
  destruct (nth_error l (Z.to_nat k)) as [a|] eqn:E; [| reflexivity].
  assert (Z.to_nat k < length l)%nat by (apply nth_error_Some; congruence).
  unfold Py.len in Hk. lia.
Qed.

Lemma getitem_app_shift {A : Type} (pre post : list A) (k : Z) :
  0 <= k -> Py.getitem (pre ++ post) (Py.len pre + k) = Py.getitem post k.
Proof.
  intros Hk. pose proof (len_nonneg pre).
  rewrite !getitem_nonneg by lia.
  rewrite nth_error_app2 by (unfold Py.len; lia).
  replace (Z.to_nat (Py.len pre + k) - length pre)%nat with (Z.to_nat k)
    by (unfold Py.len; lia).
  reflexivity.
Qed.

Lemma head_char_tagb (c : ascii) (w : string) :
  Py.head_char w = Ok c -> Ascii.eqb c tag_hint = has_tagb tag_hint w.
Proof. destruct w; simpl; [discriminate | now intros [= ->]]. Qed.

Section Total.

Variable differ_list : list string.
Let n := Py.len differ_list.
Hypothesis Htagged : all_tagged differ_list = true.
Hypothesis Hhints : no_adjacent_hints differ_list = true.

Lemma skip_hints_at_most_two (i : Z) :
  0 <= i < n - 2 ->
  exists j, skip_hints (Z.to_nat (n - (i + 1))) differ_list n i 1 = Ok j
            /\ 1 <= j <= 2 /\ i + j < n.
Proof.
  intros Hi.
  destruct (Z.to_nat (n - (i + 1))) as [|[|fuel]] eqn:Efuel; try lia.
  destruct (getitem_in_range differ_list (i + 1)) as (w1 & Hg1 & Hn1);
    [fold n; lia |].
  destruct (getitem_in_range differ_list (i + 1 + 1)) as (w2 & Hg2 & Hn2);
    [fold n; lia |].
  destruct (tagged_head w1 (all_tagged_nth _ _ _ Htagged Hn1)) as [c1 Hc1].
  destruct (tagged_head w2 (all_tagged_nth _ _ _ Htagged Hn2)) as [c2 Hc2].
  cbn [skip_hints].
  replace (i + 1 <? n) with true by (symmetry; apply Z.ltb_lt; lia).
  rewrite Hg1; cbn [bind]. rewrite Hc1; cbn [bind].
  rewrite (head_char_tagb _ _ Hc1).
  destruct (has_tagb tag_hint w1) eqn:Eh1.
  - replace (i + (1 + 1) <? n) with true by (symmetry; apply Z.ltb_lt; lia).
    replace (i + (1 + 1)) with (i + 1 + 1) by lia.
    rewrite Hg2; cbn [bind]. rewrite Hc2; cbn [bind].
    rewrite (head_char_tagb _ _ Hc2).
    replace (Z.to_nat (i + 1 + 1)) with (S (Z.to_nat (i + 1))) in Hn2 by lia.
    rewrite (no_adjacent_hints_nth _ _ _ _ Hhints Hn1 Hn2 Eh1).
    exists 2. repeat split; lia.
  - exists 1. repeat split; lia.
Qed.

Lemma tags_are_total (c a b : ascii) (k : Z) :
  0 <= k < n -> exists r, tags_are differ_list c a k b = Ok r.
Proof.
  intros Hk. unfold tags_are. destruct (Ascii.eqb c a); [| now exists false].
  destruct (getitem_in_range differ_list k Hk) as (w & Hg & Hn).
  destruct (tagged_head w (all_tagged_nth _ _ _ Htagged Hn)) as [c' Hc'].
  rewrite Hg; cbn [bind]. rewrite Hc'; cbn [bind]. eauto.
Qed.

Lemma loop_body_total (i : Z) (word : string) (st : locals) :
  0 <= i -> tagged word ->
  exists st', loop_body differ_list n i word st = Ok st'.
Proof.
  intros Hi Hword. unfold loop_body.
  destruct (0 <? skip_next st); [eauto |].
  destruct (tagged_head word Hword) as [c Hc]. rewrite Hc; cbn [bind].
  destruct (Ascii.eqb c tag_space); [eauto |].
  destruct (i <? n - 2) eqn:Ei; [| eauto]. apply Z.ltb_lt in Ei.
  destruct (skip_hints_at_most_two i) as (j & -> & Hj & Hij); [lia |].
  cbn [bind].
  destruct (tags_are_total c tag_plus tag_minus (i + j)) as [pm ->]; [lia |].
  destruct (tags_are_total c tag_minus tag_plus (i + j)) as [mp ->]; [lia |].
  cbn [bind].
  destruct (getitem_in_range differ_list (i + j)) as (w & -> & _);
    [fold n; lia |].
  cbn [bind]. destruct pm; [eauto |]. destruct mp; eauto.
Qed.

Lemma loop_total (rest pre : list string) (st : locals) :
  differ_list = pre ++ rest ->
  exists st', loop differ_list n (Py.len pre) rest st = Ok st'.
Proof.
  revert pre st; induction rest as [|word rest IH]; intros pre st Hdl.
  - simpl; eauto.
  - cbn [loop].
    destruct (loop_body_total (Py.len pre) word st) as [st1 ->].
    + apply len_nonneg.
    + apply (all_tagged_nth differ_list (length pre)); [assumption |].
      rewrite Hdl, nth_error_app2 by lia. now rewrite Nat.sub_diag.
    + cbn [bind].
      replace (Py.len pre + 1) with (Py.len (pre ++ [word]))
        by (rewrite len_app, len_cons; reflexivity).
      apply IH. now rewrite <- app_assoc.
Qed.

End Total.

(** ** The classifier: runs of matches, skips and pairs *)

Lemma loop_matches (dl pre rest : list string) (n i : Z) (st : locals) :
  Forall (has_tag tag_space) pre ->
  skip_next st = 0 ->
  loop dl n i (pre ++ rest) st
  = loop dl n (i + Py.len pre) rest (with_correct st (correct st + Py.len pre)).
Proof.
  intros Hpre; revert i st; induction Hpre as [|w pre Hw _ IH]; intros i st Hs.
  - cbn [app]. change (Py.len (@nil string)) with 0.
    rewrite !Z.add_0_r. now destruct st.
  - cbn [app loop]. unfold loop_body. rewrite Hs. cbn [Z.ltb Z.compare].
    unfold has_tag in Hw. rewrite Hw. cbn [bind].
    change (Ascii.eqb tag_space tag_space) with true. cbv iota. cbn [bind].
    rewrite IH by reflexivity. rewrite len_cons. unfold with_correct.
    cbn [correct added removed skip_next errors_prompt errors_transcript].
    rewrite Hs. f_equal; [lia |]. f_equal; lia.
Qed.

Lemma loop_skip (k : nat) (dl rest : list string) (n i : Z) (st : locals) :
  skip_next st = Z.of_nat k ->
  (k <= length rest)%nat ->
  loop dl n i rest st
  = loop dl n (i + Z.of_nat k) (skipn k rest) (with_skip st 0).
Proof.
  revert rest i st; induction k as [|k IH]; intros rest i st Hs Hk.
  - cbn [skipn]. change (Z.of_nat 0) with 0. rewrite Z.add_0_r.
    destruct st; cbn in Hs; subst; reflexivity.
  - destruct rest as [|w rest]; [cbn in Hk; lia |].
    cbn [skipn loop]. unfold loop_body.
    replace (0 <? skip_next st) with true by (symmetry; apply Z.ltb_lt; lia).
    cbn [bind]. rewrite (IH rest (i + 1)).
    + unfold with_skip; cbn [correct added removed errors_prompt
                               errors_transcript].
      f_equal. lia.
    + cbn [skip_next]. lia.
    + cbn in Hk. lia.
Qed.

Lemma skip_hints_finds (fuel : nat) (dl : list string) (i j0 j : Z)
    (other : string) :
  0 <= i -> 1 <= j0 <= j ->
  (forall k, j0 <= k < j ->
     exists h, Py.getitem dl (i + k) = Ok h /\ has_tag tag_hint h) ->
  Py.getitem dl (i + j) = Ok other ->
  tagged other -> ~ has_tag tag_hint other ->
  (Z.to_nat (j - j0) < fuel)%nat ->
  skip_hints fuel dl (Py.len dl) i j0 = Ok j.
Proof.
  intros Hi Hj Hhints Hother Htag Hnot.
  assert (Hlt : i + j < Py.len dl)
    by (apply getitem_ok_nonneg in Hother as [? _]; lia).
  revert j0 Hj Hhints; induction fuel as [|fuel IH]; intros j0 Hj Hhints Hf;
    [lia |].
  cbn [skip_hints].
  replace (i + j0 <? Py.len dl) with true by (symmetry; apply Z.ltb_lt; lia).
  destruct (Z.eq_dec j0 j) as [-> | Hne].
  - rewrite Hother; cbn [bind].
    destruct (tagged_head other Htag) as [c Hc]. rewrite Hc; cbn [bind].
    destruct (Ascii.eqb c tag_hint) eqn:E; [| reflexivity].
    apply Ascii.eqb_eq in E; subst c. now elim Hnot.
  - destruct (Hhints j0) as (h & Hh & Hc); [lia |].
    rewrite Hh; cbn [bind]. unfold has_tag in Hc. rewrite Hc; cbn [bind].
    change (Ascii.eqb tag_hint tag_hint) with true. cbv iota.
    apply IH; [lia | intros k Hk; apply Hhints; lia | lia].
Qed.

Lemma skipn_nth {A : Type} (l : list A) (k : nat) (a : A) :
  nth_error l k = Some a -> skipn k l = a :: skipn (S k) l.
Proof.
  revert k; induction l as [|b l IH]; intros [|k] H; try discriminate.
  - now injection H as ->.
  - cbn [skipn]. now apply IH.
Qed.

Lemma loop_body_pair (dl : list string) (i j : Z) (word other : string)
    (st : locals) :
  0 <= i < Py.len dl - 2 ->
  skip_next st = 0 ->
  next_op dl i j other ->
  has_tag tag_plus word /\ has_tag tag_minus other
  \/ has_tag tag_minus word /\ has_tag tag_plus other ->
  loop_body dl (Py.len dl) i word st = Ok (pair_state st word other j).
Proof.
  intros Hi Hs (Hj & Hhints & Hother & Htag & Hnot) Htags.
  assert (Hlt : i + j < Py.len dl)
    by (apply getitem_ok_nonneg in Hother as [? _]; lia).
  assert (Hsk : skip_hints (Z.to_nat (Py.len dl - (i + 1))) dl (Py.len dl) i 1
                = Ok j).
  { apply (skip_hints_finds _ dl i 1 j other); try assumption; lia. }
  unfold loop_body, pair_state. rewrite Hs. cbn [Z.ltb Z.compare].
  replace (i <? Py.len dl - 2) with true by (symmetry; apply Z.ltb_lt; lia).
  rewrite Hsk. unfold tags_are.
  destruct Htags as [[Hw Ho] | [Hw Ho]]; unfold has_tag in Hw, Ho;
    rewrite Hw; cbn [bind]; rewrite Hother; cbn [bind]; rewrite Ho;
    cbn [bind];
    destruct word as [|c word]; try discriminate; injection Hw as ->;
    cbn [has_tagb Ascii.eqb Bool.eqb tag_space tag_plus tag_minus andb orb];
    cbv iota; cbn [bind orb]; cbv iota; rewrite Z.mul_1_l; reflexivity.
Qed.

(** ** The aligner: what the differ is assumed to return *)

Lemma all_tagged_cons (w : string) (dl : list string) :
  all_tagged (w :: dl) = negb (String.eqb w EmptyString) && all_tagged dl.
Proof. reflexivity. Qed.

Lemma ref_side_inserts (b : list string) : ref_side (map insert_line b) = [].
Proof. induction b as [|y b IH]; [reflexivity | exact IH]. Qed.

Lemma hyp_side_inserts (b : list string) : hyp_side (map insert_line b) = b.
Proof.
  induction b as [|y b IH]; [reflexivity |].
  unfold hyp_side in *. cbn. now rewrite IH.
Qed.

Lemma ref_side_deletes (a : list string) : ref_side (map delete_line a) = a.
Proof.
  induction a as [|x a IH]; [reflexivity |].
  unfold ref_side in *. cbn. now rewrite IH.
Qed.

Lemma hyp_side_deletes (a : list string) : hyp_side (map delete_line a) = [].
Proof. induction a as [|x a IH]; [reflexivity | exact IH]. Qed.

Lemma all_tagged_map (tag : string) (l : list string) :
  tag <> EmptyString -> all_tagged (map (String.append tag) l) = true.
Proof.
  intros Htag. induction l as [|x l IH]; [reflexivity |].
  cbn [map]. rewrite all_tagged_cons, IH, andb_true_r.
  destruct tag; [now elim Htag | reflexivity].
Qed.

Lemma sides_match (x : string) (dl : list string) :
  ref_side (match_line x :: dl) = x :: ref_side dl
  /\ hyp_side (match_line x :: dl) = x :: hyp_side dl.
Proof. split; reflexivity. Qed.

Lemma sides_delete (x : string) (dl : list string) :
  ref_side (delete_line x :: dl) = x :: ref_side dl
  /\ hyp_side (delete_line x :: dl) = hyp_side dl.
Proof. split; reflexivity. Qed.

Lemma sides_insert (y : string) (dl : list string) :
  ref_side (insert_line y :: dl) = ref_side dl
  /\ hyp_side (insert_line y :: dl) = y :: hyp_side dl.
Proof. split; reflexivity. Qed.

Lemma edit_script_cons (a b a' b' dl : list string) (w : string) :
  edit_script a b dl ->
  w <> EmptyString ->
  ref_side (w :: dl) = a' ++ ref_side dl ->
  hyp_side (w :: dl) = b' ++ hyp_side dl ->
  edit_script (a' ++ a) (b' ++ b) (w :: dl).
Proof.
  intros (Ht & Hr & Hh) Hw Er Eh. repeat split.
  - rewrite all_tagged_cons, Ht, andb_true_r.
    destruct w; [now elim Hw | reflexivity].
  - now rewrite Er, Hr.
  - now rewrite Eh, Hh.
Qed.

Lemma lcs_differ_edit_script (a b : list string) :
  edit_script a b (lcs_differ a b).
Proof.
  revert b; induction a as [|x a IHa]; intros b.
  - cbn [lcs_differ]. repeat split.
    + now apply all_tagged_map.
    + apply ref_side_inserts.
    + apply hyp_side_inserts.
  - induction b as [|y b IHb].
    + cbn [lcs_differ]. repeat split.
      * now apply (all_tagged_map "- " (x :: a)).
      * apply (ref_side_deletes (x :: a)).
      * apply (hyp_side_deletes (x :: a)).
    + cbn [lcs_differ]. destruct (String.eqb x y) eqn:Exy.
      * apply String.eqb_eq in Exy; subst y.
        apply (edit_script_cons a b [x] [x] _ _ (IHa b));
          [discriminate | apply sides_match | apply sides_match].
      * match goal with
        | |- edit_script _ _ (if ?c then _ else _) => destruct c
        end.
        -- apply (edit_script_cons a (y :: b) [x] [] _ _ (IHa (y :: b)));
             [discriminate | apply sides_delete | apply sides_delete].
        -- apply (edit_script_cons (x :: a) b [] [y] _ _ IHb);
             [discriminate | apply sides_insert | apply sides_insert].
Qed.

Lemma lcs_differ_same (a : list string) : lcs_differ a a = map match_line a.
Proof.
  induction a as [|x a IH]; [reflexivity |].
  cbn [lcs_differ map]. now rewrite String.eqb_refl, IH.
Qed.

Lemma split_from_nonempty (sep s : string) (skip : nat) (cur : list ascii) :
  Py.split_from sep s skip cur <> [].
Proof.
  revert skip cur; induction s as [|c s IH]; intros skip cur;
    cbn [Py.split_from].
  - discriminate.
  - destruct skip; [| apply IH].
    destruct (prefix sep (String c s)); [discriminate | apply IH].
Qed.

Lemma split_space (s : string) :
  exists tokens, Py.split s " " = Ok tokens /\ tokens <> [].
Proof.
  exists (Py.split_from " " s 0 []). split; [reflexivity |].
  apply split_from_nonempty.
Qed.

(** ** The aligner: the tail trim *)

Lemma has_tag_dec (t : ascii) (w : string) : {has_tag t w} + {~ has_tag t w}.
Proof.
  destruct (has_tagb t w) eqn:E.
  - left. now apply has_tagb_spec.
  - right. intros H. apply has_tagb_spec in H. congruence.
Qed.

Lemma trim_tail_run (run r : list string) (x : string) (t : ascii) :
  tagged x -> ~ has_tag t x -> Forall (has_tag t) run ->
  trim_tail (length (r ++ x :: run)) (r ++ x :: run) t = Ok (r ++ [x]).
Proof.
  intros Hx Hnot. induction run as [|y run IH] using rev_ind; intros Hrun.
  - rewrite length_app, Nat.add_comm. cbn [length Nat.add trim_tail].
    rewrite getitem_last; cbn [bind].
    destruct (tagged_head x Hx) as [c Hc]. rewrite Hc; cbn [bind].
    destruct (Ascii.eqb c t) eqn:E; [| reflexivity].
    apply Ascii.eqb_eq in E; subst c. now elim Hnot.
  - apply Forall_app in Hrun as [Hrun Hy].
    apply Forall_inv in Hy. unfold has_tag in Hy.
    rewrite app_comm_cons, app_assoc.
    rewrite length_app, Nat.add_comm. cbn [length Nat.add trim_tail].
    rewrite getitem_last; cbn [bind]. rewrite Hy; cbn [bind].
    rewrite Ascii.eqb_refl. cbn [andb].
    replace (1 <=? Py.len ((r ++ x :: run) ++ [y])) with true.
    + unfold Py.pop. rewrite removelast_last. now apply IH.
    + symmetry; apply Z.leb_le. rewrite len_app, len_cons.
      pose proof (len_nonneg (r ++ x :: run)).
      change (Py.len (@nil string)) with 0. lia.
Qed.

(** The last line that does not carry the tag [t] splits the list. *)
Lemma tail_run_split (dl : list string) (t : ascii) :
  (exists x, In x dl /\ ~ has_tag t x) ->
  exists r x run,
    dl = r ++ x :: run /\ ~ has_tag t x /\ Forall (has_tag t) run.
Proof.
  induction dl as [|y dl IH] using rev_ind; intros (x & Hin & Hx).
  - now elim Hin.
  - destruct (has_tag_dec t y) as [Hy | Hy].
    + apply in_app_or in Hin as [Hin | [-> | []]]; [| now elim Hx].
      destruct IH as (r & x' & run & -> & Hx' & Hrun); [now exists x |].
      exists r, x', (run ++ [y]). repeat split.
      * now rewrite <- app_assoc.
      * assumption.
      * apply Forall_app; split; [assumption | now constructor].
    + exists dl, y, []. repeat split; [assumption | constructor].
Qed.

Lemma trim_last_match (l : list string) (y : string) :
  has_tag tag_space y -> trim (l ++ [y]) = Ok (l ++ [y]).
Proof.
  intros Hy. unfold trim. rewrite getitem_last; cbn [bind].
  unfold has_tag in Hy. rewrite Hy; cbn [bind]. reflexivity.
Qed.

Lemma side_nonempty (p : string -> bool) (dl : list string) :
  map line_token (filter p dl) <> [] -> exists w, In w dl /\ p w = true.
Proof.
  destruct (filter p dl) as [|w l] eqn:E; [intros H; now elim H |].
  intros _. exists w. apply filter_In. rewrite E. now left.
Qed.

Lemma has_tagb_not (t c : ascii) (w : string) :
  has_tagb c w = true -> c <> t -> ~ has_tag t w.
Proof.
  intros Hc Hne Ht. apply has_tagb_spec in Hc.
  apply Hne. exact (has_tag_inj _ _ _ Hc Ht).
Qed.

(** A script of two non-empty token lists never carries one single tag other
    than the match tag. *)
Lemma edit_script_mixed (a b dl : list string) (t : ascii) :
  edit_script a b dl -> a <> [] -> b <> [] -> t <> tag_space ->
  exists x, In x dl /\ ~ has_tag t x.
Proof.
  intros (_ & Hr & Hh) Ha Hb Ht.
  destruct (side_nonempty on_ref_side dl) as (u & Hu & Hup);
    [fold (ref_side dl); congruence |].
  destruct (side_nonempty on_hyp_side dl) as (v & Hv & Hvp);
    [fold (hyp_side dl); congruence |].
  unfold on_ref_side in Hup. unfold on_hyp_side in Hvp.
  apply orb_true_iff in Hup as [Hup | Hup].
  { exists u. split; [assumption |]. apply (has_tagb_not _ _ _ Hup). congruence. }
  apply orb_true_iff in Hvp as [Hvp | Hvp].
  { exists v. split; [assumption |]. apply (has_tagb_not _ _ _ Hvp). congruence. }
  destruct (Ascii.eqb t tag_minus) eqn:E.
  - apply Ascii.eqb_eq in E; subst t.
    exists v. split; [assumption |]. apply (has_tagb_not _ _ _ Hvp). discriminate.
  - apply Ascii.eqb_neq in E.
    exists u. split; [assumption |]. apply (has_tagb_not _ _ _ Hup). congruence.
Qed.

Lemma all_tagged_in (dl : list string) (w : string) :
  all_tagged dl = true -> In w dl -> tagged w.
Proof.
  intros H Hin. apply In_nth_error in Hin as [k Hk].
  exact (all_tagged_nth dl k w H Hk).
Qed.

Lemma trim_unfold (dl l : list string) (y : string) (t : ascii) :
  dl = l ++ [y] -> has_tag t y -> t <> tag_space ->
  trim dl = trim_tail (length dl) dl t.
Proof.
  intros E Hy Ht. unfold trim. rewrite E at 1. rewrite getitem_last; cbn [bind].
  unfold has_tag in Hy. rewrite Hy; cbn [bind].
  apply Ascii.eqb_neq in Ht. now rewrite Ht.
Qed.

Lemma get_words_count_all_match (dl : list string) :
  Forall (has_tag tag_space) dl ->
  get_words_count dl = Ok (mkWordsCount (Py.len dl) 0 0 0).
Proof.
  intros H. unfold get_words_count, get_words_count_locals.
  pose proof (loop_matches dl dl [] (Py.len dl) 0 locals_init H eq_refl) as E.
  rewrite app_nil_r in E. rewrite E. reflexivity.
Qed.

Lemma match_lines_tagged (tokens : list string) :
  Forall (has_tag tag_space) (map match_line tokens).
Proof. induction tokens; constructor; [reflexivity | assumption]. Qed.

(** * The claims *)

(** ** The aligner *)

(** C4. For every pair of text inputs, [longest_common_subsequence] returns a
    script [r], and the differ's script is [r] followed by a run [run] of
    removed lines: when the last line of the differ's script is a match
    nothing is removed; otherwise the removed lines are exactly the maximal
    trailing run of lines carrying the tag of the last line ([r] ends with a
    line of another tag). No removed line is a match and [r] is not empty.
    The differ is any function returning an edit script of its two
    arguments. *)
Theorem tail_trim_removes_last_run
    (differ_compare : list string -> list string -> list string)
    (str_a str_b : string) :
  (forall a b, edit_script a b (differ_compare a b)) ->
  exists ta tb r run l y t,
    Py.split str_a " " = Ok ta
    /\ Py.split str_b " " = Ok tb
    /\ longest_common_subsequence differ_compare
         (Py.Str str_a) (Py.Str str_b) " " = Ok r
    /\ differ_compare ta tb = r ++ run
    /\ r <> []
    /\ differ_compare ta tb = l ++ [y]
    /\ has_tag t y
    /\ (t = tag_space -> run = [])
    /\ (t <> tag_space ->
        run <> [] /\ Forall (has_tag t) run
        /\ exists r' x, r = r' ++ [x] /\ ~ has_tag t x)
    /\ Forall (fun w => ~ has_tag tag_space w) run.
Proof.
  intros Hdiffer.
  destruct (split_space str_a) as (ta & Hta & Hta_ne).
  destruct (split_space str_b) as (tb & Htb & Htb_ne).
  pose proof (Hdiffer ta tb) as Hscript.
  remember (differ_compare ta tb) as dl eqn:Edl.
  assert (Hne : dl <> []).
  { destruct Hscript as (_ & Hr & _). intros ->. now apply Hta_ne. }
  destruct (exists_last Hne) as (l & y & El).
  assert (Hy : tagged y).
  { apply (all_tagged_in dl); [apply Hscript |].
    rewrite El. apply in_or_app. right. now left. }
  destruct (tagged_head y Hy) as [t Ht].
  assert (Hlcs : longest_common_subsequence differ_compare
                   (Py.Str str_a) (Py.Str str_b) " " = trim dl).
  { unfold longest_common_subsequence. rewrite Hta, Htb; cbn [bind].
    now rewrite Edl. }
  destruct (Ascii.eqb t tag_space) eqn:Etag.
  - apply Ascii.eqb_eq in Etag; subst t.
    exists ta, tb, dl, [], l, y, tag_space. rewrite <- Edl.
    split; [exact Hta |]. split; [exact Htb |].
    split; [rewrite Hlcs, El; now apply trim_last_match |].
    split; [now rewrite app_nil_r |].
    split; [exact Hne |]. split; [exact El |]. split; [exact Ht |].
    split; [reflexivity |].
    split; [intros H; now elim H | constructor].
  - apply Ascii.eqb_neq in Etag.
    destruct (edit_script_mixed ta tb dl t Hscript Hta_ne Htb_ne Etag)
      as (x0 & Hin & Hx0).
    destruct (tail_run_split dl t) as (r & x & run & Er & Hx & Hrun);
      [now exists x0 |].
    assert (Hrun_ne : run <> []).
    { intros ->. rewrite El in Er. apply app_inj_tail in Er as [_ ->].
      now apply Hx. }
    assert (Hxt : tagged x).
    { apply (all_tagged_in dl); [apply Hscript |].
      rewrite Er. apply in_or_app. right. now left. }
    exists ta, tb, (r ++ [x]), run, l, y, t. rewrite <- Edl.
    split; [exact Hta |]. split; [exact Htb |].
    split.
    { rewrite Hlcs, (trim_unfold dl l y t El Ht Etag), Er.
      now apply trim_tail_run. }
    split; [now rewrite <- app_assoc |].
    split; [intros H; now apply app_eq_nil in H as [_ [=]] |].
    split; [exact El |]. split; [exact Ht |].
    split; [intros ->; now elim Etag |].
    split.
    { intros _. split; [exact Hrun_ne |]. split; [exact Hrun |].
      now exists r, x. }
    apply (Forall_impl _ (P := has_tag t)); [| assumption].
    intros w Hw Hw'. apply Etag. exact (has_tag_inj _ _ _ Hw Hw').
Qed.

Lemma tail_trim_removes_last_run_witness :
  exists ta tb r run l y t,
    Py.split "one two three" " " = Ok ta
    /\ Py.split "" " " = Ok tb
    /\ longest_common_subsequence lcs_differ
         (Py.Str "one two three") (Py.Str "") " " = Ok r
    /\ lcs_differ ta tb = r ++ run
    /\ r <> []
    /\ lcs_differ ta tb = l ++ [y]
    /\ has_tag t y
    /\ (t = tag_space -> run = [])
    /\ (t <> tag_space ->
        run <> [] /\ Forall (has_tag t) run
        /\ exists r' x, r = r' ++ [x] /\ ~ has_tag t x)
    /\ Forall (fun w => ~ has_tag tag_space w) run.
Proof.
  exact (tail_trim_removes_last_run lcs_differ "one two three" ""
           lcs_differ_edit_script).
Defined.

(** C8. When one of the two inputs is not a string,
    [longest_common_subsequence] raises [TypeError] whatever the differ would
    return, so before any alignment; the feature row of such a record is the
    same [TypeError], with no script and no counts. *)
Theorem non_string_input_raises
    (differ_compare : list string -> list string -> list string)
    (str_a str_b : Py.object) (split_car : string) (duration : Q) :
  Py.is_str str_a = false \/ Py.is_str str_b = false ->
  longest_common_subsequence differ_compare str_a str_b split_car
  = Raise (TypeError "Compared strings must be of string type")
  /\ compute_numerical_features differ_compare str_a str_b duration
     = Raise (TypeError "Compared strings must be of string type").
Proof.
  intros [H | H]; destruct str_a, str_b; try discriminate H; split;
    reflexivity.
Qed.

Lemma non_string_input_raises_witness :
  longest_common_subsequence lcs_differ (Py.Str "a b") Py.NoneObj " "
  = Raise (TypeError "Compared strings must be of string type")
  /\ compute_numerical_features lcs_differ (Py.Str "a b") Py.NoneObj 60
     = Raise (TypeError "Compared strings must be of string type").
Proof.
  apply (non_string_input_raises lcs_differ (Py.Str "a b") Py.NoneObj " " 60).
  right. reflexivity.
Defined.

(** ** The classifier *)

Lemma scenario2_script_is_lcs :
  lcs_differ ["a"; "b"; "c"; "d"; "e"; "f"; "g"; "h"]
             ["a"; "b"; "x"; "d"; "e"; "f"; "g"; "h"] = scenario2_script.
Proof. reflexivity. Qed.

(** C1, as stated, fails twice. In the scenario the pair ["- c"], ["+ x"] is
    counted as a replacement and its first line is counted as removed as
    well, so [removed] is 1 and not 0. And in [overlap_script] the insert at
    index 1 is followed by the delete at index 2, both below [len(ops) - 2],
    yet this pair is not counted: index 1 is skipped as the second line of
    the pair opened at index 0, and [replaced] is 1. *)
Lemma replacement_also_counted_removed :
  (Py.getitem scenario2_script 2 = Ok "- c"
   /\ Py.getitem scenario2_script 3 = Ok "+ x"
   /\ 2 < Py.len scenario2_script - 2
   /\ get_words_count scenario2_script = Ok (mkWordsCount 7 0 1 1)
   /\ wc_removed (mkWordsCount 7 0 1 1) <> 0)
  /\ (Py.getitem overlap_script 1 = Ok "+ b"
      /\ Py.getitem overlap_script 2 = Ok "- c"
      /\ 1 < Py.len overlap_script - 2
      /\ get_words_count_locals overlap_script
         = Ok (mkLocals 2 0 2 0 ["a"] ["b"])).
Proof. repeat split; try reflexivity. discriminate. Qed.

(** C1, amended. When the walk reaches, with no skip pending, an index
    [i < len(ops) - 2] whose line is an insert followed (hint lines skipped)
    by a delete, or a delete followed by an insert, it records the pair once
    as a replacement and resumes just past the second line of the pair; the
    first line of the pair is also counted once, as added for an insert and
    as removed for a delete, and [correct] is unchanged. In the scenario the
    counts are correct 7, added 0, removed 1, replaced 1. *)
Theorem replacement_pair_counted_once (differ_list : list string) (i j : Z)
    (word other : string) (st : locals) :
  0 <= i < Py.len differ_list - 2 ->
  Py.getitem differ_list i = Ok word ->
  skip_next st = 0 ->
  next_op differ_list i j other ->
  has_tag tag_plus word /\ has_tag tag_minus other
  \/ has_tag tag_minus word /\ has_tag tag_plus other ->
  (exists st',
     loop differ_list (Py.len differ_list) i
       (skipn (Z.to_nat i) differ_list) st
     = loop differ_list (Py.len differ_list) (i + j + 1)
         (skipn (Z.to_nat (i + j + 1)) differ_list) st'
     /\ skip_next st' = 0
     /\ correct st' = correct st
     /\ replaced st' = replaced st + 1
     /\ (has_tag tag_plus word ->
         added st' = added st + 1 /\ removed st' = removed st)
     /\ (has_tag tag_minus word ->
         removed st' = removed st + 1 /\ added st' = added st))
  /\ get_words_count scenario2_script = Ok (mkWordsCount 7 0 1 1).
Proof.
  intros Hi Hword Hs Hnext Htags. split; [| reflexivity].
  pose proof Hnext as (Hj & _ & Hother & _).
  apply getitem_ok_nonneg in Hword as [_ Hnth]; [| lia].
  apply getitem_ok_nonneg in Hother as [Hlt _]; [| lia].
  exists (with_skip (pair_state st word other j) 0).
  split.
  - rewrite (skipn_nth _ _ _ Hnth). cbn [loop].
    rewrite (loop_body_pair differ_list i j word other st Hi Hs Hnext Htags).
    cbn [bind].
    rewrite (loop_skip (Z.to_nat j)).
    + rewrite skipn_skipn. f_equal; [lia | f_equal; lia].
    + unfold pair_state. destruct (has_tagb tag_plus word); cbn [skip_next]; lia.
    + rewrite length_skipn. unfold Py.len in Hlt. lia.
  - unfold pair_state, replaced.
    destruct Htags as [[Hw _] | [Hw _]]; pose proof Hw as Hb;
      apply has_tagb_spec in Hb.
    + rewrite Hb. cbn. rewrite len_app.
      split; [reflexivity |]. split; [reflexivity |]. split; [reflexivity |].
      split; [intros _; split; reflexivity |].
      intros Hw'; pose proof (has_tag_inj _ _ _ Hw Hw'); discriminate.
    + assert (Hp : has_tagb tag_plus word = false).
      { destruct (has_tagb tag_plus word) eqn:E; [| reflexivity].
        apply has_tagb_spec in E.
        pose proof (has_tag_inj _ _ _ Hw E); discriminate. }
      rewrite Hp. cbn. rewrite len_app.
      split; [reflexivity |]. split; [reflexivity |]. split; [reflexivity |].
      split; [| intros _; split; reflexivity].
      intros Hw'; pose proof (has_tag_inj _ _ _ Hw Hw'); discriminate.
Qed.

Lemma replacement_pair_counted_once_witness :
  (exists st',
     loop scenario2_script (Py.len scenario2_script) 2
       (skipn (Z.to_nat 2) scenario2_script) (mkLocals 2 0 0 0 [] [])
     = loop scenario2_script (Py.len scenario2_script) (2 + 1 + 1)
         (skipn (Z.to_nat (2 + 1 + 1)) scenario2_script) st'
     /\ skip_next st' = 0
     /\ correct st' = correct (mkLocals 2 0 0 0 [] [])
     /\ replaced st' = replaced (mkLocals 2 0 0 0 [] []) + 1
     /\ (has_tag tag_plus "- c" ->
         added st' = added (mkLocals 2 0 0 0 [] []) + 1
         /\ removed st' = removed (mkLocals 2 0 0 0 [] []))
     /\ (has_tag tag_minus "- c" ->
         removed st' = removed (mkLocals 2 0 0 0 [] []) + 1
         /\ added st' = added (mkLocals 2 0 0 0 [] [])))
  /\ get_words_count scenario2_script = Ok (mkWordsCount 7 0 1 1).
Proof.
  apply (replacement_pair_counted_once scenario2_script 2 1 "- c" "+ x"
           (mkLocals 2 0 0 0 [] [])).
  - vm_compute. split; [discriminate | reflexivity].
  - reflexivity.
  - reflexivity.
  - split; [lia |]. split; [intros k Hk; lia |].
    split; [reflexivity |]. split; discriminate.
  - right. split; reflexivity.
Defined.

(** C2. When the insert comes first, the code stores the pair the other way
    round: the token of the insert line, which comes from the hypothesis,
    goes to the list under [PROMPT_TEXT_COL], and the token of the delete
    line, which comes from the reference, goes to the list under
    ["transcript"]. The delete-first branch, as on the scenario script,
    stores the reference token under [PROMPT_TEXT_COL]. *)
Theorem insert_first_pair_is_swapped :
  ref_side insert_first_script = ["a"; "c1"; "c2"; "d"; "e"; "f"]
  /\ hyp_side insert_first_script = ["a"; "x"; "d"; "e"; "f"]
  /\ get_words_count_locals insert_first_script
     = Ok (mkLocals 4 1 1 0 ["x"] ["c1"])
  /\ get_words_count_locals scenario2_script
     = Ok (mkLocals 7 0 1 0 ["c"] ["x"]).
Proof. repeat split; reflexivity. Qed.

(** What the insert-first branch stores, for every script. *)
Lemma insert_first_pair_stored (differ_list : list string) (i j : Z)
    (word other : string) (st st' : locals) :
  0 <= i < Py.len differ_list - 2 ->
  skip_next st = 0 ->
  next_op differ_list i j other ->
  has_tag tag_plus word -> has_tag tag_minus other ->
  loop_body differ_list (Py.len differ_list) i word st = Ok st' ->
  errors_prompt st'
  = errors_prompt st ++ [Py.replace_with_empty word "+ "]
  /\ errors_transcript st'
     = errors_transcript st ++ [Py.replace_with_empty other "- "].
Proof.
  intros Hi Hs Hnext Hw Ho.
  rewrite (loop_body_pair differ_list i j word other st Hi Hs Hnext)
    by (left; now split).
  intros [= <-]. unfold pair_state.
  apply has_tagb_spec in Hw. rewrite Hw. split; reflexivity.
Qed.

(** C3, as stated, fails: in ["- a"; "+ b"; "  c"] the insert at index 1 sits
    at [len(ops) - 2], yet it is the second line of the pair opened at index
    0: its token is in the pair and [replaced] is 1. With a delete in its
    place [replaced] is 0. *)
Lemma boundary_op_is_paired :
  Py.len ["- a"; "+ b"; "  c"] - 2 <= 1
  /\ Py.getitem ["- a"; "+ b"; "  c"] 1 = Ok "+ b"
  /\ ~ has_tag tag_space "+ b"
  /\ get_words_count_locals ["- a"; "+ b"; "  c"]
     = Ok (mkLocals 1 0 1 0 ["a"] ["b"])
  /\ get_words_count ["- a"; "+ b"; "  c"] = Ok (mkWordsCount 1 0 1 1)
  /\ get_words_count ["- a"; "- b"; "  c"] = Ok (mkWordsCount 1 0 1 0).
Proof.
  split; [vm_compute; discriminate |]. split; [reflexivity |].
  split; [discriminate |]. repeat split; reflexivity.
Qed.

(** C3, amended. For every script and every index [i >= len(ops) - 2], the
    round of the walk at [i], on a line that is not a match, changes none of
    the counts correct, added, removed, replaced and appends no pair,
    whatever the state it starts from. A line at such an index can still be
    the second line of a pair opened at an index below [len(ops) - 2]. *)
Theorem boundary_round_changes_nothing (differ_list : list string) (i : Z)
    (word : string) (st : locals) :
  Py.len differ_list - 2 <= i ->
  tagged word ->
  ~ has_tag tag_space word ->
  exists st',
    loop_body differ_list (Py.len differ_list) i word st = Ok st'
    /\ correct st' = correct st
    /\ added st' = added st
    /\ removed st' = removed st
    /\ replaced st' = replaced st
    /\ errors_prompt st' = errors_prompt st
    /\ errors_transcript st' = errors_transcript st.
Proof.
  intros Hi Hword Hnot. unfold loop_body.
  destruct (0 <? skip_next st).
  { eexists. split; [reflexivity |]. repeat split. }
  destruct (tagged_head word Hword) as [c Hc]. rewrite Hc; cbn [bind].
  destruct (Ascii.eqb c tag_space) eqn:E.
  { apply Ascii.eqb_eq in E; subst c. now elim Hnot. }
  replace (i <? Py.len differ_list - 2) with false
    by (symmetry; apply Z.ltb_ge; lia).
  exists st. repeat split.
Qed.

Lemma boundary_round_changes_nothing_witness :
  exists st',
    loop_body ["  a"; "- b"; "- c"] (Py.len ["  a"; "- b"; "- c"]) 1 "- b"
      (mkLocals 1 0 0 0 [] []) = Ok st'
    /\ correct st' = correct (mkLocals 1 0 0 0 [] [])
    /\ added st' = added (mkLocals 1 0 0 0 [] [])
    /\ removed st' = removed (mkLocals 1 0 0 0 [] [])
    /\ replaced st' = replaced (mkLocals 1 0 0 0 [] [])
    /\ errors_prompt st' = errors_prompt (mkLocals 1 0 0 0 [] [])
    /\ errors_transcript st' = errors_transcript (mkLocals 1 0 0 0 [] []).
Proof.
  apply (boundary_round_changes_nothing ["  a"; "- b"; "- c"] 1 "- b"
           (mkLocals 1 0 0 0 [] [])).
  - vm_compute. discriminate.
  - discriminate.
  - discriminate.
Defined.

(** C5. Whenever [get_words_count] returns, the four counts are not
    negative, [replaced] is the length of the list of pairs, the two lists
    of [errors_dict] have the same length, and the four counts add up to at
    most [len(ops)]. *)
Theorem counts_within_script (differ_list : list string) (wc : words_count) :
  get_words_count differ_list = Ok wc ->
  exists st,
    get_words_count_locals differ_list = Ok st
    /\ 0 <= wc_correct wc /\ 0 <= wc_added wc
    /\ 0 <= wc_removed wc /\ 0 <= wc_replaced wc
    /\ wc_replaced wc = Py.len (errors_prompt st)
    /\ Py.len (errors_prompt st) = Py.len (errors_transcript st)
    /\ wc_correct wc + wc_added wc + wc_removed wc + wc_replaced wc
       <= Py.len differ_list.
Proof.
  intros Hwc. unfold get_words_count in Hwc.
  apply bind_ok in Hwc as (st & Hst & Hwc). injection Hwc as <-.
  exists st. split; [exact Hst |].
  unfold get_words_count_locals in Hst. apply loop_inv in Hst.
  - destruct Hst as [Hc Ha Hr Hs Hp He Ht].
    assert (Hs0 : skip_next st = 0) by lia.
    rewrite Hs0 in Ht. cbn [Z.ltb Z.compare] in Ht.
    unfold total, replaced in Ht. unfold words_count_of.
    cbn [wc_correct wc_added wc_removed wc_replaced].
    pose proof (len_nonneg (errors_prompt st)). lia.
  - lia.
  - lia.
  - apply walk_inv_init, len_nonneg.
Qed.

Lemma counts_within_script_witness :
  exists st,
    get_words_count_locals scenario2_script = Ok st
    /\ 0 <= wc_correct (mkWordsCount 7 0 1 1)
    /\ 0 <= wc_added (mkWordsCount 7 0 1 1)
    /\ 0 <= wc_removed (mkWordsCount 7 0 1 1)
    /\ 0 <= wc_replaced (mkWordsCount 7 0 1 1)
    /\ wc_replaced (mkWordsCount 7 0 1 1) = Py.len (errors_prompt st)
    /\ Py.len (errors_prompt st) = Py.len (errors_transcript st)
    /\ wc_correct (mkWordsCount 7 0 1 1) + wc_added (mkWordsCount 7 0 1 1)
       + wc_removed (mkWordsCount 7 0 1 1)
       + wc_replaced (mkWordsCount 7 0 1 1)
       <= Py.len scenario2_script.
Proof.
  apply (counts_within_script scenario2_script (mkWordsCount 7 0 1 1)).
  reflexivity.
Defined.

(** An insert or a delete, reached with no skip pending and followed by two
    hint lines that end the script, makes the look-ahead read
    [differ_list[len(differ_list)]]. *)
Lemma loop_body_two_hints (pre : list string) (w h1 h2 : string)
    (st : locals) :
  skip_next st = 0 ->
  has_tag tag_plus w \/ has_tag tag_minus w ->
  has_tag tag_hint h1 -> has_tag tag_hint h2 ->
  loop_body (pre ++ [w; h1; h2]) (Py.len (pre ++ [w; h1; h2])) (Py.len pre)
    w st = Raise IndexError.
Proof.
  intros Hs Hw Hh1 Hh2. set (dl := pre ++ [w; h1; h2]).
  assert (Hn : Py.len dl = Py.len pre + 3)
    by (unfold dl; rewrite len_app; reflexivity).
  assert (G1 : Py.getitem dl (Py.len pre + 1) = Ok h1)
    by (unfold dl; now rewrite getitem_app_shift).
  assert (G2 : Py.getitem dl (Py.len pre + (1 + 1)) = Ok h2)
    by (unfold dl; now rewrite getitem_app_shift).
  assert (G3 : Py.getitem dl (Py.len pre + (1 + 1 + 1)) = Raise IndexError)
    by (unfold dl; now rewrite getitem_app_shift).
  assert (Hsk : skip_hints (Z.to_nat (Py.len dl - (Py.len pre + 1))) dl
                  (Py.len dl) (Py.len pre) 1 = Ok (1 + 1 + 1)).
  { rewrite Hn.
    replace (Z.to_nat (Py.len pre + 3 - (Py.len pre + 1))) with 2%nat by lia.
    unfold has_tag in Hh1, Hh2. cbn [skip_hints].
    replace (Py.len pre + 1 <? Py.len pre + 3) with true
      by (symmetry; apply Z.ltb_lt; lia).
    replace (Py.len pre + (1 + 1) <? Py.len pre + 3) with true
      by (symmetry; apply Z.ltb_lt; lia).
    rewrite G1; cbn [bind]. rewrite Hh1; cbn [bind].
    change (Ascii.eqb tag_hint tag_hint) with true. cbv iota.
    rewrite G2; cbn [bind]. rewrite Hh2; cbn [bind].
    reflexivity. }
  unfold loop_body. rewrite Hs. cbn [Z.ltb Z.compare].
  replace (Py.len pre <? Py.len dl - 2) with true
    by (symmetry; apply Z.ltb_lt; lia).
  rewrite Hsk. unfold tags_are.
  destruct Hw as [Hw | Hw]; unfold has_tag in Hw; rewrite Hw; cbn [bind].
  - change (Ascii.eqb tag_plus tag_space) with false.
    change (Ascii.eqb tag_plus tag_plus) with true. cbv iota.
    now rewrite G3.
  - change (Ascii.eqb tag_minus tag_space) with false.
    change (Ascii.eqb tag_minus tag_plus) with false.
    change (Ascii.eqb tag_minus tag_minus) with true. cbv iota. cbn [bind].
    now rewrite G3.
Qed.

Lemma two_trailing_hints_raise (pre : list string) (w h1 h2 : string) :
  Forall (has_tag tag_space) pre ->
  has_tag tag_plus w \/ has_tag tag_minus w ->
  has_tag tag_hint h1 -> has_tag tag_hint h2 ->
  get_words_count (pre ++ [w; h1; h2]) = Raise IndexError.
Proof.
  intros Hpre Hw Hh1 Hh2. unfold get_words_count, get_words_count_locals.
  rewrite (loop_matches _ pre [w; h1; h2] _ 0 locals_init Hpre eq_refl).
  rewrite Z.add_0_l. cbn [loop].
  rewrite (loop_body_two_hints pre w h1 h2) by (assumption || reflexivity).
  reflexivity.
Qed.

(** C10. In a script whose lines all carry a tag and in which no hint line
    directly follows another, the look-ahead from an index [i < len(ops) - 2]
    stops at some [j] with [i + j < len(ops)], and the classification returns
    counts. Without the condition the look-ahead can leave the list: a
    script that ends with an insert or a delete, reached with no skip
    pending, and two hint lines raises [IndexError]. *)
Theorem lookahead_stays_in_bounds (differ_list : list string) :
  all_tagged differ_list = true ->
  no_adjacent_hints differ_list = true ->
  (forall i, 0 <= i < Py.len differ_list - 2 ->
     exists j,
       skip_hints (Z.to_nat (Py.len differ_list - (i + 1))) differ_list
         (Py.len differ_list) i 1 = Ok j
       /\ 1 <= j /\ i + j < Py.len differ_list)
  /\ (exists wc, get_words_count differ_list = Ok wc)
  /\ (forall pre w h1 h2,
        Forall (has_tag tag_space) pre ->
        has_tag tag_plus w \/ has_tag tag_minus w ->
        has_tag tag_hint h1 -> has_tag tag_hint h2 ->
        no_adjacent_hints (pre ++ [w; h1; h2]) = false
        /\ get_words_count (pre ++ [w; h1; h2]) = Raise IndexError).
Proof.
  intros Htagged Hhints. split; [| split].
  - intros i Hi.
    destruct (skip_hints_at_most_two differ_list Htagged Hhints i Hi)
      as (j & Hj & Hj12 & Hlt).
    exists j. repeat split; [assumption | lia | assumption].
  - destruct (loop_total differ_list Htagged Hhints differ_list [] locals_init
                eq_refl) as [st Hst].
    exists (words_count_of st). unfold get_words_count, get_words_count_locals.
    change (Py.len (@nil string)) with 0 in Hst. now rewrite Hst.
  - intros pre w h1 h2 Hpre Hw Hh1 Hh2. split.
    + clear Hpre. apply has_tagb_spec in Hh1, Hh2.
      induction pre as [|a pre IH].
      * cbn [app no_adjacent_hints]. rewrite Hh1, Hh2.
        now rewrite andb_false_r.
      * destruct pre as [|b pre].
        -- cbn [app no_adjacent_hints] in *. rewrite IH. apply andb_false_r.
        -- cbn [app no_adjacent_hints] in *. rewrite IH. apply andb_false_r.
    + now apply two_trailing_hints_raise.
Qed.

Lemma lookahead_stays_in_bounds_witness :
  (forall i, 0 <= i < Py.len ["- abcd"; "? ^"; "+ abce"; "  x"; "  y"] - 2 ->
     exists j,
       skip_hints
         (Z.to_nat (Py.len ["- abcd"; "? ^"; "+ abce"; "  x"; "  y"] - (i + 1)))
         ["- abcd"; "? ^"; "+ abce"; "  x"; "  y"]
         (Py.len ["- abcd"; "? ^"; "+ abce"; "  x"; "  y"]) i 1 = Ok j
       /\ 1 <= j
       /\ i + j < Py.len ["- abcd"; "? ^"; "+ abce"; "  x"; "  y"])
  /\ (exists wc,
        get_words_count ["- abcd"; "? ^"; "+ abce"; "  x"; "  y"] = Ok wc)
  /\ (forall pre w h1 h2,
        Forall (has_tag tag_space) pre ->
        has_tag tag_plus w \/ has_tag tag_minus w ->
        has_tag tag_hint h1 -> has_tag tag_hint h2 ->
        no_adjacent_hints (pre ++ [w; h1; h2]) = false
        /\ get_words_count (pre ++ [w; h1; h2]) = Raise IndexError).
Proof.
  apply (lookahead_stays_in_bounds ["- abcd"; "? ^"; "+ abce"; "  x"; "  y"]);
    reflexivity.
Defined.

(** C6. For a reference of at least three tokens aligned against itself,
    with a differ that returns one match line per token of two equal lists,
    the trim removes nothing, every line is a match, and the counts are
    correct = number of tokens, added = removed = replaced = 0. *)
Theorem identical_inputs_all_correct
    (differ_compare : list string -> list string -> list string)
    (s : string) (tokens : list string) :
  (forall a, differ_compare a a = map match_line a) ->
  Py.split s " " = Ok tokens ->
  3 <= Py.len tokens ->
  exists differ_list,
    longest_common_subsequence differ_compare (Py.Str s) (Py.Str s) " "
    = Ok differ_list
    /\ differ_list = differ_compare tokens tokens
    /\ Forall (has_tag tag_space) differ_list
    /\ get_words_count differ_list = Ok (mkWordsCount (Py.len tokens) 0 0 0).
Proof.
  intros Hsame Hsplit Hlen.
  exists (map match_line tokens).
  assert (Hne : tokens <> []) by (intros ->; cbn in Hlen; lia).
  destruct (exists_last Hne) as (l & y & ->).
  split; [| split; [| split]].
  - unfold longest_common_subsequence. rewrite Hsplit; cbn [bind].
    rewrite Hsame, map_app. now apply trim_last_match.
  - now rewrite Hsame.
  - apply match_lines_tagged.
  - rewrite (get_words_count_all_match _ (match_lines_tagged _)).
    unfold Py.len. now rewrite length_map.
Qed.

Lemma identical_inputs_all_correct_witness :
  exists differ_list,
    longest_common_subsequence lcs_differ
      (Py.Str "the cat sat on the mat") (Py.Str "the cat sat on the mat") " "
    = Ok differ_list
    /\ differ_list
       = lcs_differ ["the"; "cat"; "sat"; "on"; "the"; "mat"]
           ["the"; "cat"; "sat"; "on"; "the"; "mat"]
    /\ Forall (has_tag tag_space) differ_list
    /\ get_words_count differ_list
       = Ok (mkWordsCount (Py.len ["the"; "cat"; "sat"; "on"; "the"; "mat"])
               0 0 0).
Proof.
  apply (identical_inputs_all_correct lcs_differ "the cat sat on the mat"
           ["the"; "cat"; "sat"; "on"; "the"; "mat"]).
  - exact lcs_differ_same.
  - reflexivity.
  - vm_compute. discriminate.
Defined.

(** ** The features *)

Lemma per_minute_one_minute (count : Z) (duration : Q) :
  (duration == 60)%Q -> rate_is (per_minute count duration) count.
Proof.
  intros Hd. unfold per_minute.
  assert (Hm : (duration / 60 == 1)%Q) by (rewrite Hd; reflexivity).
  destruct (Qeq_bool (duration / 60) 0) eqn:E.
  - apply Qeq_bool_iff in E. rewrite Hm in E. discriminate E.
  - cbn [rate_is]. rewrite Hm. unfold Qdiv. change (/ 1)%Q with 1%Q.
    apply Qmult_1_r.
Qed.

(** C7. For a record whose duration is 60 seconds, each of the five rates
    [correct_words_pm], [added_words_pm], [removed_words_pm],
    [replaced_words_pm] and [asr_word_count_pm] of its feature row is finite
    and equal to the count it is computed from. *)
Theorem rates_equal_counts_at_sixty
    (differ_compare : list string -> list string -> list string)
    (prompt asr_transcript : Py.object) (duration : Q) (f : features) :
  (duration == 60)%Q ->
  compute_numerical_features differ_compare prompt asr_transcript duration
  = Ok f ->
  exists differ_list wc asr,
    longest_common_subsequence differ_compare prompt asr_transcript " "
    = Ok differ_list
    /\ get_words_count differ_list = Ok wc
    /\ asr_transcript = Py.Str asr
    /\ rate_is (correct_words_pm f) (wc_correct wc)
    /\ rate_is (added_words_pm f) (wc_added wc)
    /\ rate_is (removed_words_pm f) (wc_removed wc)
    /\ rate_is (replaced_words_pm f) (wc_replaced wc)
    /\ rate_is (asr_word_count_pm f) (Py.len (Py.split_ws asr)).
Proof.
  intros Hd H. unfold compute_numerical_features in H.
  apply bind_ok in H as (dl & Hdl & H).
  apply bind_ok in H as (wc & Hwc & H).
  apply bind_ok in H as (asr & Hasr & H).
  apply bind_ok in H as (prompt_s & _ & H).
  apply bind_ok in H as (ps & _ & H).
  apply bind_ok in H as (qs & _ & H).
  injection H as <-.
  exists dl, wc, asr.
  split; [exact Hdl |]. split; [exact Hwc |].
  split; [destruct asr_transcript; try discriminate Hasr; now injection Hasr as -> |].
  cbn [correct_words_pm added_words_pm removed_words_pm replaced_words_pm
       asr_word_count_pm].
  repeat split; now apply per_minute_one_minute.
Qed.

Lemma rates_equal_counts_at_sixty_witness :
  exists differ_list wc asr,
    longest_common_subsequence lcs_differ (Py.Str "a b c d e f g h")
      (Py.Str "a b x d e f g h") " " = Ok differ_list
    /\ get_words_count differ_list = Ok wc
    /\ Py.Str "a b x d e f g h" = Py.Str asr
    /\ rate_is (Finite (420 # 60)) (wc_correct wc)
    /\ rate_is (Finite (0 # 60)) (wc_added wc)
    /\ rate_is (Finite (60 # 60)) (wc_removed wc)
    /\ rate_is (Finite (60 # 60)) (wc_replaced wc)
    /\ rate_is (Finite (480 # 60)) (Py.len (Py.split_ws asr)).
Proof.
  apply (rates_equal_counts_at_sixty lcs_differ (Py.Str "a b c d e f g h")
           (Py.Str "a b x d e f g h") 60
           (mkFeatures (Finite (420 # 60)) (Finite (0 # 60))
              (Finite (60 # 60)) (Finite (60 # 60)) (Finite (480 # 60))
              1%float 0%float 1%float 0%float)).
  - reflexivity.
  - vm_compute. reflexivity.
Defined.

(** C9. [get_words_length_stats] returns mean 0 and standard deviation 0 on
    the empty string, without raising, and mean 3.0 and standard deviation
    0.0 on a single token of three characters. *)
Theorem word_length_stats_cases (c1 c2 c3 : ascii) :
  c1 <> " "%char -> c2 <> " "%char -> c3 <> " "%char ->
  get_words_length_stats "" " " = Ok (0%float, 0%float)
  /\ get_words_length_stats (String c1 (String c2 (String c3 ""))) " "
     = Ok (3%float, 0%float).
Proof.
  intros H1 H2 H3. split; [reflexivity |].
  unfold get_words_length_stats, Py.split.
  cbn [Py.split_from prefix].
  destruct (ascii_dec " " c1) as [E | _]; [now elim H1 |].
  destruct (ascii_dec " " c2) as [E | _]; [now elim H2 |].
  destruct (ascii_dec " " c3) as [E | _]; [now elim H3 |].
  reflexivity.
Qed.

Lemma word_length_stats_cases_witness :
  get_words_length_stats "" " " = Ok (0%float, 0%float)
  /\ get_words_length_stats "cat" " " = Ok (3%float, 0%float).
Proof.
  apply (word_length_stats_cases "c" "a" "t"); discriminate.
Defined.

(** * Further properties *)

(** ** Counting lines *)

Lemma firstn_succ_nth {A : Type} (l : list A) (k : nat) (a : A) :
  nth_error l k = Some a -> firstn (S k) l = firstn k l ++ [a].
Proof.
  revert k; induction l as [|b l IH]; intros [|k] H; try discriminate.
  - now injection H as ->.
  - change (b :: firstn (S k) l = b :: (firstn k l ++ [a])).
    f_equal. exact (IH k H).
Qed.

Lemma tagged_before_step (c : ascii) (dl : list string) (q : Z) (w : string) :
  0 <= q -> Py.getitem dl q = Ok w ->
  tagged_before c dl (q + 1)
  = tagged_before c dl q + (if has_tagb c w then 1 else 0).
Proof.
  intros Hq Hw. apply getitem_ok_nonneg in Hw as [_ Hnth]; [| assumption].
  unfold tagged_before.
  replace (Z.to_nat (q + 1)) with (S (Z.to_nat q)) by lia.
  rewrite (firstn_succ_nth _ _ _ Hnth), filter_app, len_app. cbn [filter].
  destruct (has_tagb c w); reflexivity.
Qed.

Lemma tagged_before_mono (c : ascii) (dl : list string) (a b : Z) :
  a <= b -> tagged_before c dl a <= tagged_before c dl b.
Proof.
  intros Hab. unfold tagged_before.
  assert (H : (Z.to_nat a <= Z.to_nat b)%nat) by lia.
  revert H. generalize (Z.to_nat a) (Z.to_nat b). clear.
  intros p q; revert q dl; induction p as [|p IH]; intros q dl Hpq.
  - cbn. apply len_nonneg.
  - destruct q as [|q]; [lia |]. destruct dl as [|w dl]; [cbn; lia |].
    cbn [firstn filter]. specialize (IH q dl ltac:(lia)).
    destruct (has_tagb c w); rewrite ?len_cons; lia.
Qed.

(** Lines without the tag [c] do not move the count. *)
Lemma tagged_before_skip (c : ascii) (dl : list string) (m : nat) (a : Z) :
  0 <= a ->
  (forall k, a <= k < a + Z.of_nat m ->
     exists w, Py.getitem dl k = Ok w /\ has_tagb c w = false) ->
  tagged_before c dl (a + Z.of_nat m) = tagged_before c dl a.
Proof.
  intros Ha. induction m as [|m IH]; intros H.
  - now rewrite Z.add_0_r.
  - replace (a + Z.of_nat (S m)) with (a + Z.of_nat m + 1) by lia.
    destruct (H (a + Z.of_nat m)) as (w & Hw & Hc); [lia |].
    rewrite (tagged_before_step c dl _ w) by (assumption || lia).
    rewrite Hc, Z.add_0_r. apply IH. intros k Hk. apply H. lia.
Qed.

Lemma tagged_before_all (c : ascii) (dl : list string) :
  tagged_before c dl (Py.len dl) = Py.len (filter (has_tagb c) dl).
Proof.
  unfold tagged_before, Py.len at 2. now rewrite Nat2Z.id, firstn_all.
Qed.

(** ** The look-ahead only passes hint lines *)

Lemma skip_hints_passed (fuel : nat) (dl : list string) (n i j0 j : Z) :
  skip_hints fuel dl n i j0 = Ok j ->
  forall k, j0 <= k < j ->
    exists h, Py.getitem dl (i + k) = Ok h /\ has_tag tag_hint h.
Proof.
  revert j0; induction fuel as [|fuel IH]; intros j0; cbn [skip_hints].
  - intros [= ->] k Hk; lia.
  - destruct (i + j0 <? n); [| intros [= ->] k Hk; lia].
    destruct (Py.getitem dl (i + j0)) as [w|] eqn:Hw; cbn [bind];
      [| discriminate].
    destruct (Py.head_char w) as [c|] eqn:Hc; cbn [bind]; [| discriminate].
    destruct (Ascii.eqb c tag_hint) eqn:E; [| intros [= ->] k Hk; lia].
    apply Ascii.eqb_eq in E; subst c. intros H k Hk.
    destruct (Z.eq_dec k j0) as [-> | Hne]; [now exists w |].
    apply (IH _ H). lia.
Qed.

Lemma has_tag_other (c t : ascii) (w : string) :
  has_tag t w -> c <> t -> has_tagb c w = false.
Proof.
  intros Ht Hne. destruct (has_tagb c w) eqn:E; [| reflexivity].
  apply has_tagb_spec in E. elim Hne. exact (has_tag_inj _ _ _ E Ht).
Qed.

Lemma has_tag_tagged (t : ascii) (w : string) : has_tag t w -> tagged w.
Proof. intros H ->. discriminate H. Qed.

(** ** What the walk has read and counted *)

Lemma walk_facts_init (dl : list string) : walk_facts dl 0 locals_init.
Proof.
  pose proof (len_nonneg dl).
  constructor; cbn [locals_init correct added removed skip_next errors_prompt
                    errors_transcript]; try reflexivity; try lia.
  - split; [lia | apply len_nonneg].
  - split; [lia | apply len_nonneg].
Qed.

Ltac close_ifs :=
  repeat match goal with
         | |- context [if ?b then _ else _] => destruct b
         end;
  lia.

Lemma loop_body_facts (dl : list string) (i : Z) (word : string)
    (st st' : locals) :
  0 <= i < Py.len dl ->
  Py.getitem dl i = Ok word ->
  walk_facts dl i st ->
  loop_body dl (Py.len dl) i word st = Ok st' ->
  walk_facts dl (i + 1) st'.
Proof.
  intros Hi Hword [Hs Hf Hc Ha Hr Hp Hb Hread] H.
  unfold loop_body in H.
  destruct (0 <? skip_next st) eqn:Eskip.
  { apply Z.ltb_lt in Eskip. injection H as <-.
    constructor;
      cbn [correct added removed skip_next errors_prompt errors_transcript];
      replace (i + 1 + (skip_next st - 1)) with (i + skip_next st) by lia;
      try assumption; lia. }
  apply Z.ltb_ge in Eskip. assert (Hs0 : skip_next st = 0) by lia.
  rewrite Hs0, Z.add_0_r in *. clear Eskip Hs Hf.
  destruct word as [|c word0]; [discriminate H |]. cbn [Py.head_char bind] in H.
  assert (Hw : has_tag c (String c word0)) by reflexivity.
  assert (Hstep : forall t,
             tagged_before t dl (i + 1)
             = tagged_before t dl i + (if Ascii.eqb c t then 1 else 0)).
  { intros t. now rewrite (tagged_before_step t dl i _ (proj1 Hi) Hword). }
  assert (Hread1 : forall k, 0 <= k < i + 1 ->
                     exists w, Py.getitem dl k = Ok w /\ tagged w).
  { intros k Hk. destruct (Z.eq_dec k i) as [-> | Hne].
    - exists (String c word0). split; [assumption | discriminate].
    - apply Hread. lia. }
  destruct (Ascii.eqb c tag_space) eqn:Espace.
  { injection H as <-.
    constructor;
      cbn [correct added removed skip_next errors_prompt errors_transcript];
      rewrite ?Z.add_0_r; rewrite ?Hstep, ?Espace; try assumption;
      close_ifs. }
  destruct (i <? Py.len dl - 2) eqn:Ei.
  2:{ apply Z.ltb_ge in Ei. injection H as <-.
      constructor; rewrite ?Hs0, ?Z.add_0_r;
        rewrite ?Hstep, ?Espace; try assumption; close_ifs. }
  apply Z.ltb_lt in Ei.
  apply bind_ok in H as (j & Hj & H).
  pose proof (skip_hints_ge _ _ _ _ _ _ Hj) as Hj1.
  pose proof (skip_hints_passed _ _ _ _ _ _ Hj) as Hpassed.
  apply bind_ok in H as (pm & Hpm & H).
  apply bind_ok in H as (mp & Hmp & H).
  assert (Hpair : forall other (t : ascii),
             Py.getitem dl (i + j) = Ok other -> has_tag t other ->
             t <> tag_hint -> t <> tag_space ->
             i + j < Py.len dl
             /\ tagged_before tag_space dl (i + 1 + j)
                = tagged_before tag_space dl i
             /\ forall k, 0 <= k < i + 1 + j ->
                  exists w, Py.getitem dl k = Ok w /\ tagged w).
  { intros other t Ho Ht Hth Hts.
    pose proof (getitem_ok_nonneg dl (i + j) other ltac:(lia) Ho) as [Hlt _].
    assert (Hall : forall k, i <= k < i + 1 + j ->
                     exists w, Py.getitem dl k = Ok w
                               /\ has_tagb tag_space w = false /\ tagged w).
    { intros k Hk. destruct (Z.eq_dec k i) as [-> | Hne].
      - exists (String c word0).
        split; [assumption |]. split; [exact Espace | discriminate].
      - destruct (Z.eq_dec k (i + j)) as [-> | Hne'].
        + exists other. split; [assumption |]. split.
          * apply (has_tag_other _ t); [assumption | congruence].
          * exact (has_tag_tagged _ _ Ht).
        + destruct (Hpassed (k - i)) as (h & Hh & Hhint); [lia |].
          replace (i + (k - i)) with k in Hh by lia.
          exists h. split; [assumption |]. split.
          * apply (has_tag_other _ tag_hint); [assumption | discriminate].
          * exact (has_tag_tagged _ _ Hhint). }
    split; [assumption |]. split.
    - replace (i + 1 + j) with (i + Z.of_nat (Z.to_nat (1 + j))) by lia.
      apply tagged_before_skip; [lia |]. intros k Hk.
      destruct (Hall k) as (w & Hg & Hm & _); [lia |]. now exists w.
    - intros k Hk. destruct (Z_lt_ge_dec k i) as [Hlow | Hhigh].
      + apply Hread. lia.
      + destruct (Hall k) as (w & Hg & _ & Htag); [lia |]. now exists w. }
  destruct pm.
  { apply tags_are_true in Hpm as (-> & other & Ho & Ht).
    rewrite Ho in H. cbn [bind orb] in H. rewrite Z.mul_1_l in H.
    injection H as <-.
    destruct (Hpair other tag_minus Ho Ht) as (Hlt & Hcnt & Hrd);
      try discriminate.
    change (Ascii.eqb tag_plus tag_plus) with true.
    pose proof (tagged_before_mono tag_plus dl (i + 1) (i + 1 + j)
                  ltac:(lia)) as M1.
    pose proof (tagged_before_mono tag_minus dl i (i + 1 + j) ltac:(lia))
      as M2.
    rewrite Hstep in M1. change (Ascii.eqb tag_plus tag_plus) with true in M1.
    cbv iota in M1.
    constructor;
      cbn [correct added removed skip_next errors_prompt errors_transcript];
      rewrite ?len_app, ?len_cons; change (Py.len (@nil string)) with 0;
      try assumption; lia. }
  destruct mp.
  { apply tags_are_true in Hmp as (-> & other & Ho & Ht).
    rewrite Ho in H. cbn [bind orb] in H. rewrite Z.mul_1_l in H.
    injection H as <-.
    destruct (Hpair other tag_plus Ho Ht) as (Hlt & Hcnt & Hrd);
      try discriminate.
    change (Ascii.eqb tag_minus tag_plus) with false.
    change (Ascii.eqb tag_minus tag_minus) with true.
    pose proof (tagged_before_mono tag_minus dl (i + 1) (i + 1 + j)
                  ltac:(lia)) as M1.
    pose proof (tagged_before_mono tag_plus dl i (i + 1 + j) ltac:(lia))
      as M2.
    rewrite Hstep in M1.
    change (Ascii.eqb tag_minus tag_minus) with true in M1. cbv iota in M1.
    constructor;
      cbn [correct added removed skip_next errors_prompt errors_transcript];
      rewrite ?len_app, ?len_cons; change (Py.len (@nil string)) with 0;
      try assumption; lia. }
  cbn [orb] in H. rewrite Z.mul_0_l in H. injection H as <-.
  constructor;
    cbn [correct added removed skip_next errors_prompt errors_transcript];
    rewrite ?Z.add_0_r; rewrite ?Hstep, ?Espace; try assumption; close_ifs.
Qed.

Lemma loop_facts (dl rest pre : list string) (st st' : locals) :
  dl = pre ++ rest ->
  walk_facts dl (Py.len pre) st ->
  loop dl (Py.len dl) (Py.len pre) rest st = Ok st' ->
  walk_facts dl (Py.len dl) st'.
Proof.
  revert pre st; induction rest as [|word rest IH]; intros pre st Hdl Hfacts.
  - cbn [loop]. intros [= <-]. rewrite app_nil_r in Hdl. now subst pre.
  - cbn [loop]. intros H. apply bind_ok in H as (st1 & Hbody & H).
    assert (Hword : Py.getitem dl (Py.len pre) = Ok word)
      by (rewrite Hdl; apply getitem_app_mid).
    assert (Hi : 0 <= Py.len pre < Py.len dl).
    { pose proof (len_nonneg pre). pose proof (len_nonneg rest).
      rewrite Hdl, len_app, len_cons. lia. }
    pose proof (loop_body_facts dl _ word st st1 Hi Hword Hfacts Hbody) as H1.
    replace (Py.len pre + 1) with (Py.len (pre ++ [word])) in H, H1
      by (rewrite len_app, len_cons; reflexivity).
    apply (IH (pre ++ [word]) st1); [now rewrite <- app_assoc | | ]; assumption.
Qed.

Lemma get_words_count_facts (dl : list string) (st : locals) :
  get_words_count_locals dl = Ok st -> walk_facts dl (Py.len dl) st.
Proof.
  intros H. apply (loop_facts dl dl [] locals_init st eq_refl).
  - apply walk_facts_init.
  - exact H.
Qed.

(** ** The only exception of the classifier *)

Lemma bind_raise {A B : Type} (m : result A) (k : A -> result B) (e : exn) :
  bind m k = Raise e -> m = Raise e \/ exists a, m = Ok a /\ k a = Raise e.
Proof. destruct m as [a|e']; cbn; [right; now exists a | left; congruence]. Qed.

Lemma getitem_raises {A : Type} (l : list A) (i : Z) (e : exn) :
  Py.getitem l i = Raise e -> e = IndexError.
Proof.
  unfold Py.getitem.
  destruct ((if i <? 0 then i + Py.len l else i) <? 0); [congruence |].
  destruct (nth_error l _); [discriminate | congruence].
Qed.

Lemma head_char_raises (w : string) (e : exn) :
  Py.head_char w = Raise e -> e = IndexError.
Proof. destruct w; cbn; [congruence | discriminate]. Qed.

Lemma read_raises (dl : list string) (k : Z) (B : Type)
    (f : ascii -> result B) (e : exn) :
  (forall c, f c = Raise e -> e = IndexError) ->
  (w <- Py.getitem dl k ;; c <- Py.head_char w ;; f c) = Raise e ->
  e = IndexError.
Proof.
  intros Hf H. apply bind_raise in H as [H | (w & _ & H)];
    [exact (getitem_raises _ _ _ H) |].
  apply bind_raise in H as [H | (c & _ & H)];
    [exact (head_char_raises _ _ H) | exact (Hf c H)].
Qed.

Lemma skip_hints_raises (fuel : nat) (dl : list string) (n i j : Z) (e : exn) :
  skip_hints fuel dl n i j = Raise e -> e = IndexError.
Proof.
  revert j; induction fuel as [|fuel IH]; intros j; cbn [skip_hints];
    [discriminate |].
  destruct (i + j <? n); [| discriminate].
  apply read_raises. intros c. destruct (Ascii.eqb c tag_hint);
    [apply IH | discriminate].
Qed.

Lemma tags_are_raises (dl : list string) (c a b : ascii) (k : Z) (e : exn) :
  tags_are dl c a k b = Raise e -> e = IndexError.
Proof.
  unfold tags_are. destruct (Ascii.eqb c a); [| discriminate].
  apply read_raises. discriminate.
Qed.

Lemma loop_body_raises (dl : list string) (n i : Z) (word : string)
    (st : locals) (e : exn) :
  loop_body dl n i word st = Raise e -> e = IndexError.
Proof.
  unfold loop_body. destruct (0 <? skip_next st); [discriminate |].
  intros H. apply bind_raise in H as [H | (c & _ & H)];
    [exact (head_char_raises _ _ H) |].
  destruct (Ascii.eqb c tag_space); [discriminate |].
  destruct (i <? n - 2); [| discriminate].
  apply bind_raise in H as [H | (j & _ & H)];
    [exact (skip_hints_raises _ _ _ _ _ _ H) |].
  apply bind_raise in H as [H | (pm & _ & H)];
    [exact (tags_are_raises _ _ _ _ _ _ H) |].
  apply bind_raise in H as [H | (mp & _ & H)];
    [exact (tags_are_raises _ _ _ _ _ _ H) |].
  destruct pm; [| destruct mp; [| discriminate]];
    (apply bind_raise in H as [H | (o & _ & H)];
     [exact (getitem_raises _ _ _ H) | discriminate]).
Qed.

Lemma loop_raises (dl rest : list string) (n i : Z) (st : locals) (e : exn) :
  loop dl n i rest st = Raise e -> e = IndexError.
Proof.
  revert i st; induction rest as [|word rest IH]; intros i st; cbn [loop];
    [discriminate |].
  intros H. apply bind_raise in H as [H | (st1 & _ & H)];
    [exact (loop_body_raises _ _ _ _ _ _ H) | exact (IH _ _ H)].
Qed.

(** * Further results on the classifier *)

(** X1. Whenever [get_words_count] returns, [correct] is the number of match
    lines of the script: no match line is skipped or lost at the boundary. *)
Theorem correct_is_number_of_matches (differ_list : list string)
    (wc : words_count) :
  get_words_count differ_list = Ok wc ->
  wc_correct wc = Z.of_nat (count_matches differ_list).
Proof.
  intros H. unfold get_words_count in H.
  apply bind_ok in H as (st & Hst & H). injection H as <-.
  destruct (get_words_count_facts _ _ Hst) as [Hs Hf Hc _ _ _ _ _].
  assert (Hs0 : skip_next st = 0) by lia.
  rewrite Hs0, Z.add_0_r, tagged_before_all in Hc. exact Hc.
Qed.

Lemma correct_is_number_of_matches_witness :
  wc_correct (mkWordsCount 7 0 1 1) = Z.of_nat (count_matches scenario2_script).
Proof.
  apply (correct_is_number_of_matches scenario2_script (mkWordsCount 7 0 1 1)).
  reflexivity.
Defined.

(** X2. Whenever [get_words_count] returns, every replacement has also been
    counted as an addition or as a removal: [replaced <= added + removed]. *)
Theorem replaced_within_added_and_removed (differ_list : list string)
    (wc : words_count) :
  get_words_count differ_list = Ok wc ->
  wc_replaced wc <= wc_added wc + wc_removed wc.
Proof.
  intros H. unfold get_words_count in H.
  apply bind_ok in H as (st & Hst & H). injection H as <-.
  destruct (get_words_count_facts _ _ Hst) as [_ _ _ _ _ Hp _ _].
  exact Hp.
Qed.

Lemma replaced_within_added_and_removed_witness :
  wc_replaced (mkWordsCount 4 1 1 1)
  <= wc_added (mkWordsCount 4 1 1 1) + wc_removed (mkWordsCount 4 1 1 1).
Proof.
  apply (replaced_within_added_and_removed insert_first_script
           (mkWordsCount 4 1 1 1)).
  reflexivity.
Defined.

(** X3. Whenever [get_words_count] returns, [added] is at most the number of
    insert lines, [removed] at most the number of delete lines, and the two
    together at most [len(differ_list) - 2]: a script of one or two lines
    never has an addition, a removal or a replacement. *)
Theorem added_removed_bounds (differ_list : list string) (wc : words_count) :
  get_words_count differ_list = Ok wc ->
  wc_added wc <= Py.len (filter (has_tagb tag_plus) differ_list)
  /\ wc_removed wc <= Py.len (filter (has_tagb tag_minus) differ_list)
  /\ wc_added wc + wc_removed wc <= Z.max 0 (Py.len differ_list - 2)
  /\ (Py.len differ_list <= 2 ->
      wc_added wc = 0 /\ wc_removed wc = 0 /\ wc_replaced wc = 0).
Proof.
  intros H. unfold get_words_count in H.
  apply bind_ok in H as (st & Hst & H). injection H as <-.
  destruct (get_words_count_facts _ _ Hst) as [Hs Hf _ Ha Hr Hp Hb _].
  assert (Hs0 : skip_next st = 0) by lia.
  rewrite Hs0, Z.add_0_r, tagged_before_all in Ha, Hr.
  unfold words_count_of. cbn [wc_added wc_removed wc_replaced].
  pose proof (len_nonneg (errors_prompt st)).
  repeat split; lia.
Qed.

Lemma added_removed_bounds_witness :
  wc_added (mkWordsCount 4 1 1 1)
  <= Py.len (filter (has_tagb tag_plus) insert_first_script)
  /\ wc_removed (mkWordsCount 4 1 1 1)
     <= Py.len (filter (has_tagb tag_minus) insert_first_script)
  /\ wc_added (mkWordsCount 4 1 1 1) + wc_removed (mkWordsCount 4 1 1 1)
     <= Z.max 0 (Py.len insert_first_script - 2)
  /\ (Py.len insert_first_script <= 2 ->
      wc_added (mkWordsCount 4 1 1 1) = 0
      /\ wc_removed (mkWordsCount 4 1 1 1) = 0
      /\ wc_replaced (mkWordsCount 4 1 1 1) = 0).
Proof.
  apply (added_removed_bounds insert_first_script (mkWordsCount 4 1 1 1)).
  reflexivity.
Defined.

(** X4. [get_words_count] reads the first character of every line: a script
    with an empty line anywhere raises [IndexError], and [IndexError] is the
    only exception the function raises. *)
Theorem empty_line_raises_index_error (differ_list : list string) :
  In EmptyString differ_list ->
  get_words_count differ_list = Raise IndexError
  /\ forall e dl, get_words_count dl = Raise e -> e = IndexError.
Proof.
  assert (Honly : forall e dl, get_words_count dl = Raise e -> e = IndexError).
  { intros e dl H. unfold get_words_count in H.
    apply bind_raise in H as [H | (st & _ & H)]; [| discriminate].
    exact (loop_raises _ _ _ _ _ _ H). }
  intros Hin. split; [| exact Honly].
  destruct (get_words_count differ_list) as [wc|e] eqn:E.
  - exfalso. unfold get_words_count in E.
    apply bind_ok in E as (st & Hst & _).
    destruct (get_words_count_facts _ _ Hst) as [Hs Hf _ _ _ _ _ Hread].
    assert (Hs0 : skip_next st = 0) by lia.
    rewrite Hs0, Z.add_0_r in Hread.
    apply In_nth_error in Hin as [k Hk].
    destruct (Hread (Z.of_nat k)) as (w & Hw & Htag).
    + assert (k < length differ_list)%nat
        by (apply nth_error_Some; congruence).
      unfold Py.len. lia.
    + apply getitem_ok_nonneg in Hw as [_ Hw]; [| lia].
      rewrite Nat2Z.id, Hk in Hw. injection Hw as <-. now apply Htag.
  - now rewrite (Honly e differ_list E).
Qed.

Lemma empty_line_raises_index_error_witness :
  get_words_count ["  a"; "  b"; "  c"; ""] = Raise IndexError
  /\ forall e dl, get_words_count dl = Raise e -> e = IndexError.
Proof.
  apply (empty_line_raises_index_error ["  a"; "  b"; "  c"; ""]).
  cbn. tauto.
Defined.

(** * Further results on the aligner *)

Lemma getitem_last_inv {A : Type} (l : list A) (a : A) :
  Py.getitem l (-1) = Ok a -> exists l', l = l' ++ [a].
Proof.
  destruct l as [|b l0] using rev_ind.
  - now rewrite getitem_nil.
  - rewrite getitem_last. intros [= ->]. now exists l0.
Qed.

Lemma trim_tail_removed (fuel : nat) (dl r : list string) (t : ascii) :
  trim_tail fuel dl t = Ok r ->
  exists run, dl = r ++ run /\ Forall (has_tag t) run.
Proof.
  revert dl; induction fuel as [|fuel IH]; intros dl; cbn [trim_tail];
    [discriminate |].
  intros H. apply bind_ok in H as (w & Hw & H).
  apply bind_ok in H as (c & Hc & H).
  destruct (Ascii.eqb c t && (1 <=? Py.len dl)) eqn:E.
  - apply andb_true_iff in E as [E _]. apply Ascii.eqb_eq in E; subst c.
    apply getitem_last_inv in Hw as [l ->].
    unfold Py.pop in H. rewrite removelast_last in H.
    destruct (IH _ H) as (run & -> & Hrun).
    exists (run ++ [w]). split; [now rewrite <- app_assoc |].
    apply Forall_app. split; [assumption | now constructor].
  - injection H as <-. exists []. split; [now rewrite app_nil_r | constructor].
Qed.

Lemma trim_removed (dl r : list string) :
  trim dl = Ok r ->
  exists run t,
    dl = r ++ run /\ Forall (has_tag t) run /\ t <> tag_space /\ r <> [].
Proof.
  unfold trim. intros H. apply bind_ok in H as (w & Hw & H).
  apply bind_ok in H as (t & Ht & H).
  apply getitem_last_inv in Hw as [l Hl].
  destruct (Ascii.eqb t tag_space) eqn:E; cbn [negb] in H.
  - injection H as <-. exists [], tag_hint.
    split; [now rewrite app_nil_r |]. split; [constructor |].
    split; [discriminate |]. rewrite Hl. now destruct l.
  - apply Ascii.eqb_neq in E.
    destruct (trim_tail_removed _ _ _ _ H) as (run & Hrun & Hall).
    exists run, t. split; [assumption |]. split; [assumption |].
    split; [assumption |]. intros ->. cbn [app] in Hrun. subst run.
    rewrite Hl in Hall. apply Forall_app in Hall as [Hall _].
    rewrite Hl in H. clear Hl.
    assert (Hu : Forall (has_tag t) (l ++ [w]))
      by (apply Forall_app; split; [assumption | now constructor]).
    revert H Hu. generalize (l ++ [w]). clear. intros l H Hu.
    induction l as [|y l IH] using rev_ind; [discriminate H |].
    apply Forall_app in Hu as [Hu Hy]. apply Forall_inv in Hy.
    rewrite length_app, Nat.add_comm in H. cbn [length Nat.add trim_tail] in H.
    rewrite getitem_last in H. cbn [bind] in H. unfold has_tag in Hy.
    rewrite Hy in H. cbn [bind] in H. rewrite Ascii.eqb_refl in H.
    replace (1 <=? Py.len (l ++ [y])) with true in H.
    + cbn [andb] in H. unfold Py.pop in H. rewrite removelast_last in H.
      now apply IH.
    + symmetry. apply Z.leb_le. rewrite len_app, len_cons.
      pose proof (len_nonneg l). change (Py.len (@nil string)) with 0. lia.
Qed.

Lemma filter_none {A : Type} (p : A -> bool) (l : list A) :
  Forall (fun a => p a = false) l -> filter p l = [].
Proof.
  induction 1 as [|a l Ha _ IH]; [reflexivity |].
  cbn [filter]. now rewrite Ha.
Qed.

Lemma side_without (p : string -> bool) (r run : list string) :
  Forall (fun w => p w = false) run ->
  map line_token (filter p (r ++ run)) = map line_token (filter p r).
Proof. intros H. now rewrite filter_app, (filter_none p run H), app_nil_r. Qed.

(** X5. Whatever the differ returns, the script [longest_common_subsequence]
    gives back is a non-empty prefix of it in which no match line is missing
    and in which the tokens of at least one of the two texts are all still
    there: the trim only drops lines of one tag, and never a match. *)
Theorem trim_keeps_matches_and_one_side
    (differ_compare : list string -> list string -> list string)
    (str_a str_b split_car : string) (r : list string) :
  longest_common_subsequence differ_compare (Py.Str str_a) (Py.Str str_b)
    split_car = Ok r ->
  exists ta tb run,
    Py.split str_a split_car = Ok ta
    /\ Py.split str_b split_car = Ok tb
    /\ differ_compare ta tb = r ++ run
    /\ r <> []
    /\ count_matches r = count_matches (differ_compare ta tb)
    /\ (ref_side r = ref_side (differ_compare ta tb)
        \/ hyp_side r = hyp_side (differ_compare ta tb)).
Proof.
  unfold longest_common_subsequence. intros H.
  apply bind_ok in H as (ta & Hta & H). apply bind_ok in H as (tb & Htb & H).
  destruct (trim_removed _ _ H) as (run & t & Hdl & Hrun & Ht & Hne).
  exists ta, tb, run. rewrite Hdl.
  split; [assumption |]. split; [assumption |]. split; [reflexivity |].
  split; [assumption |]. split.
  - unfold count_matches. rewrite filter_app, (filter_none _ run).
    + now rewrite app_nil_r.
    + apply (Forall_impl _ (P := has_tag t)); [| assumption].
      intros w Hw. apply (has_tag_other _ t); [assumption | congruence].
  - destruct (Ascii.eqb t tag_minus) eqn:E.
    + apply Ascii.eqb_eq in E; subst t. right. unfold hyp_side.
      symmetry. apply side_without.
      apply (Forall_impl _ (P := has_tag tag_minus)); [| assumption].
      intros w Hw. unfold on_hyp_side.
      rewrite (has_tag_other tag_space tag_minus w Hw) by discriminate.
      now rewrite (has_tag_other tag_plus tag_minus w Hw) by discriminate.
    + apply Ascii.eqb_neq in E. left. unfold ref_side.
      symmetry. apply side_without.
      apply (Forall_impl _ (P := has_tag t)); [| assumption].
      intros w Hw. unfold on_ref_side.
      rewrite (has_tag_other tag_space t w Hw) by congruence.
      now rewrite (has_tag_other tag_minus t w Hw) by congruence.
Qed.

Lemma trim_keeps_matches_and_one_side_witness :
  exists ta tb run,
    Py.split "a b c d" " " = Ok ta
    /\ Py.split "a b" " " = Ok tb
    /\ lcs_differ ta tb = ["  a"; "  b"] ++ run
    /\ ["  a"; "  b"] <> []
    /\ count_matches ["  a"; "  b"] = count_matches (lcs_differ ta tb)
    /\ (ref_side ["  a"; "  b"] = ref_side (lcs_differ ta tb)
        \/ hyp_side ["  a"; "  b"] = hyp_side (lcs_differ ta tb)).
Proof.
  apply (trim_keeps_matches_and_one_side lcs_differ "a b c d" "a b" " "
           ["  a"; "  b"]).
  reflexivity.
Defined.

Lemma trim_tail_uniform (l : list string) (t : ascii) :
  Forall (has_tag t) l -> trim_tail (length l) l t = Raise IndexError.
Proof.
  induction l as [|y l IH] using rev_ind; intros H; [reflexivity |].
  apply Forall_app in H as [Hl Hy]. apply Forall_inv in Hy.
  rewrite length_app, Nat.add_comm. cbn [length Nat.add trim_tail].
  rewrite getitem_last; cbn [bind]. unfold has_tag in Hy.
  rewrite Hy; cbn [bind]. rewrite Ascii.eqb_refl.
  replace (1 <=? Py.len (l ++ [y])) with true.
  - cbn [andb]. unfold Py.pop. rewrite removelast_last. now apply IH.
  - symmetry. apply Z.leb_le. rewrite len_app, len_cons.
    pose proof (len_nonneg l). change (Py.len (@nil string)) with 0. lia.
Qed.

(** On a script whose lines all have a tag, the trim returns unless the
    script is empty or carries one single tag other than the match tag. *)
Lemma trim_cases (dl : list string) :
  all_tagged dl = true ->
  dl = []
  \/ (exists t, t <> tag_space /\ Forall (has_tag t) dl)
  \/ exists r, trim dl = Ok r.
Proof.
  intros Htagged.
  destruct dl as [|y l] using rev_ind; [now left |]. clear IHl. right.
  assert (Hy : tagged y).
  { apply (all_tagged_in (l ++ [y])); [assumption |].
    apply in_or_app. right. now left. }
  destruct (tagged_head y Hy) as [t Ht].
  destruct (Ascii.eqb t tag_space) eqn:E.
  - apply Ascii.eqb_eq in E; subst t. right. exists (l ++ [y]).
    now apply trim_last_match.
  - apply Ascii.eqb_neq in E.
    destruct (Forall_dec (has_tag t) (has_tag_dec t) (l ++ [y]))
      as [Hall | Hnot].
    + left. now exists t.
    + right.
      apply (neg_Forall_Exists_neg (has_tag_dec t)) in Hnot.
      apply Exists_exists in Hnot as (x0 & Hin & Hx0).
      destruct (tail_run_split (l ++ [y]) t) as (r & x & run & Er & Hx & Hrun);
        [now exists x0 |].
      exists (r ++ [x]).
      rewrite (trim_unfold (l ++ [y]) l y t eq_refl Ht E), Er.
      apply trim_tail_run; [| assumption | assumption].
      apply (all_tagged_in (l ++ [y])); [assumption |].
      rewrite Er. apply in_or_app. right. now left.
Qed.

Lemma trim_uniform_fails (dl : list string) :
  dl = [] \/ (exists t, t <> tag_space /\ Forall (has_tag t) dl) ->
  trim dl = Raise IndexError.
Proof.
  intros [-> | (t & Ht & Hall)]; [unfold trim; now rewrite getitem_nil |].
  destruct dl as [|y l] using rev_ind;
    [unfold trim; now rewrite getitem_nil |].
  pose proof Hall as Hall'. apply Forall_app in Hall' as [_ Hy].
  apply Forall_inv in Hy.
  rewrite (trim_unfold (l ++ [y]) l y t eq_refl Hy Ht).
  now apply trim_tail_uniform.
Qed.

(** X6. On two strings and the default separator, when every line the
    differ returns has a tag, [longest_common_subsequence] raises
    [IndexError] exactly when the differ returns no line at all or only lines
    of one and the same tag other than the match tag; the test
    [len(differ_list) >= 1] of the loop does not prevent it. In every other
    case a script is returned. *)
Theorem trim_fails_on_uniform_scripts
    (differ_compare : list string -> list string -> list string)
    (str_a str_b : string) (ta tb : list string) :
  Py.split str_a " " = Ok ta ->
  Py.split str_b " " = Ok tb ->
  all_tagged (differ_compare ta tb) = true ->
  (longest_common_subsequence differ_compare (Py.Str str_a) (Py.Str str_b) " "
   = Raise IndexError
   <-> differ_compare ta tb = []
       \/ exists t, t <> tag_space
                    /\ Forall (has_tag t) (differ_compare ta tb))
  /\ (longest_common_subsequence differ_compare (Py.Str str_a) (Py.Str str_b)
        " " = Raise IndexError
      \/ exists r,
           longest_common_subsequence differ_compare (Py.Str str_a)
             (Py.Str str_b) " " = Ok r).
Proof.
  intros Hta Htb Htagged.
  unfold longest_common_subsequence. rewrite Hta, Htb. cbn [bind].
  pose proof (trim_cases _ Htagged) as Hcases.
  pose proof (trim_uniform_fails (differ_compare ta tb)) as Hfail.
  split.
  - split; [| exact Hfail].
    intros H. destruct Hcases as [H0 | [H1 | [r Hr]]];
      [now left | now right | congruence].
  - destruct Hcases as [H0 | [H1 | [r Hr]]].
    + left. apply Hfail. now left.
    + left. apply Hfail. now right.
    + right. now exists r.
Qed.

Lemma trim_fails_on_uniform_scripts_witness :
  (longest_common_subsequence (fun a _ => map delete_line a) (Py.Str "a b")
     (Py.Str "x") " " = Raise IndexError
   <-> (fun a (_ : list string) => map delete_line a) ["a"; "b"] ["x"] = []
       \/ exists t, t <> tag_space
            /\ Forall (has_tag t)
                 ((fun a (_ : list string) => map delete_line a)
                    ["a"; "b"] ["x"]))
  /\ (longest_common_subsequence (fun a _ => map delete_line a) (Py.Str "a b")
        (Py.Str "x") " " = Raise IndexError
      \/ exists r,
           longest_common_subsequence (fun a _ => map delete_line a)
             (Py.Str "a b") (Py.Str "x") " " = Ok r).
Proof.
  apply (trim_fails_on_uniform_scripts (fun a _ => map delete_line a)
           "a b" "x" ["a"; "b"] ["x"]); reflexivity.
Defined.

(** * Further results on the features *)











(** ** The two ways the transcript is split *)

Lemma string_of_rev_empty (cur : list ascii) :
  String.eqb (string_of_list_ascii (rev cur)) EmptyString
  = match cur with [] => true | _ => false end.
Proof.
  destruct cur as [|c cur]; [reflexivity |].
  cbn [rev]. destruct (rev cur); reflexivity.
Qed.

Lemma split_ws_from_space_split (s : string) (cur : list ascii) :
  only_blank_space s = true ->
  Py.split_ws_from s cur = filter non_empty (Py.split_from " " s 0 cur).
Proof.
  revert cur; induction s as [|c s IH]; intros cur Hs.
  - cbn [Py.split_ws_from Py.split_from filter]. unfold non_empty.
    rewrite string_of_rev_empty. now destruct cur.
  - cbn [only_blank_space] in Hs. apply andb_true_iff in Hs as [Hc Hs].
    cbn [Py.split_ws_from Py.split_from prefix].
    destruct (ascii_dec " " c) as [<- | Hne].
    + change (Py.is_space " ") with true. cbv iota.
      change (String.length " " - 1)%nat with 0%nat.
      replace (prefix "" s) with true by (now destruct s).
      cbn [filter]. unfold non_empty at 1. rewrite string_of_rev_empty.
      rewrite <- (IH [] Hs). now destruct cur.
    + destruct (Py.is_space c) eqn:E.
      * cbn [negb orb] in Hc. apply Ascii.eqb_eq in Hc. now elim Hne.
      * now apply IH.
Qed.

(** X8. [compute_numerical_features] splits the transcript twice, on single
    spaces for the alignment and on whitespace for [asr_word_count]. When
    the space is the only whitespace of the transcript, [asr_word_count] is
    the number of non-empty tokens that are aligned; the empty tokens that
    leading, trailing or doubled spaces add are aligned but not counted. *)
Theorem asr_word_count_is_non_empty_tokens
    (differ_compare : list string -> list string -> list string)
    (prompt : Py.object) (asr : string) (duration : Q) (f : features) :
  only_blank_space asr = true ->
  compute_numerical_features differ_compare prompt (Py.Str asr) duration
  = Ok f ->
  exists tokens,
    Py.split asr " " = Ok tokens
    /\ Py.split_ws asr = filter non_empty tokens
    /\ asr_word_count_pm f
       = per_minute (Py.len (filter non_empty tokens)) duration.
Proof.
  intros Hs H. exists (Py.split_from " " asr 0 []).
  split; [reflexivity |].
  assert (E : Py.split_ws asr = filter non_empty (Py.split_from " " asr 0 []))
    by (apply split_ws_from_space_split; assumption).
  split; [assumption |].
  unfold compute_numerical_features in H.
  apply bind_ok in H as (dl & _ & H). apply bind_ok in H as (wc & _ & H).
  cbn [as_str bind] in H.
  apply bind_ok in H as (p & _ & H). apply bind_ok in H as (ps & _ & H).
  apply bind_ok in H as (qs & _ & H). injection H as <-.
  cbn [asr_word_count_pm]. now rewrite E.
Qed.

Lemma asr_word_count_is_non_empty_tokens_witness :
  exists tokens,
    Py.split " a b " " " = Ok tokens
    /\ Py.split_ws " a b " = filter non_empty tokens
    /\ Finite (120 # 60)
       = per_minute (Py.len (filter non_empty tokens)) 60.
Proof.
  apply (asr_word_count_is_non_empty_tokens lcs_differ (Py.Str "a b")
           " a b " 60
           (mkFeatures (Finite (120 # 60)) (Finite (60 # 60))
              (Finite (0 # 60)) (Finite (0 # 60)) (Finite (120 # 60))
              1%float 0%float 0.5%float 0.5%float)).
  - reflexivity.
  - vm_compute. reflexivity.
Defined.


(** * The earlier word count *)

Lemma count_loop_tagged (l : list string) (counter : Z) :
  Forall tagged l ->
  count_loop l counter = Ok (counter + Z.of_nat (count_matches l)).
Proof.
  intros H; revert counter; induction H as [|w l Hw _ IH]; intros counter.
  - cbn. now rewrite Z.add_0_r.
  - destruct w as [|c w]; [now elim Hw |].
    cbn [count_loop Py.head_char bind]. rewrite IH.
    unfold count_matches. cbn [filter has_tagb].
    destruct (Ascii.eqb c tag_space); cbn [length]; f_equal; lia.
Qed.

Lemma all_read_tagged (l : list string) :
  (forall k, 0 <= k < Py.len l ->
     exists w, Py.getitem l k = Ok w /\ tagged w) ->
  Forall tagged l.
Proof.
  intros H. apply Forall_forall. intros w Hin.
  apply In_nth_error in Hin as [k Hk].
  assert (Hlt : (k < length l)%nat) by (apply nth_error_Some; congruence).
  destruct (H (Z.of_nat k)) as (w' & Hw' & Htag); [unfold Py.len; lia |].
  apply getitem_ok_nonneg in Hw' as [_ Hw']; [| lia].
  rewrite Nat2Z.id, Hk in Hw'. now injection Hw' as <-.
Qed.

Lemma count_matches_app (l l' : list string) :
  count_matches (l ++ l') = (count_matches l + count_matches l')%nat.
Proof. unfold count_matches. now rewrite filter_app, length_app. Qed.

(** X10. The two word counts of the repository agree: whenever
    [longest_common_subsequence] and [get_words_count] return on two strings,
    the count of common words of [compare_text] on the same strings is the
    [correct] of [get_words_count]. *)
Theorem compare_text_is_correct_count
    (differ_compare : list string -> list string -> list string)
    (py_str : Py.object -> string) (a b split_car : string)
    (r : list string) (wc : words_count) :
  (forall s, py_str (Py.Str s) = s) ->
  longest_common_subsequence differ_compare (Py.Str a) (Py.Str b) split_car
  = Ok r ->
  get_words_count r = Ok wc ->
  compare_text differ_compare py_str (Py.Str a) (Py.Str b) split_car
  = Ok (wc_correct wc).
Proof.
  intros Hstr Hlcs Hwc. unfold longest_common_subsequence in Hlcs.
  apply bind_ok in Hlcs as (ta & Hta & Hlcs).
  apply bind_ok in Hlcs as (tb & Htb & Hlcs).
  destruct (trim_removed _ _ Hlcs) as (run & t & Hdl & Hrun & Ht & _).
  unfold compare_text. rewrite !Hstr, Hta, Htb. cbn [bind]. rewrite Hdl.
  unfold get_words_count in Hwc. apply bind_ok in Hwc as (st & Hst & Hwc).
  injection Hwc as <-.
  destruct (get_words_count_facts _ _ Hst) as [Hs Hf Hc _ _ _ _ Hread].
  assert (Hs0 : skip_next st = 0) by lia.
  rewrite Hs0, Z.add_0_r in Hc, Hread. rewrite tagged_before_all in Hc.
  rewrite count_loop_tagged.
  - rewrite count_matches_app.
    assert (Hz : count_matches run = 0%nat).
    { unfold count_matches. rewrite filter_none; [reflexivity |].
      apply (Forall_impl _ (P := has_tag t)); [| assumption].
      intros w Hw. apply (has_tag_other _ t); [assumption | congruence]. }
    rewrite Hz, Nat.add_0_r. cbn [words_count_of wc_correct].
    rewrite Hc. reflexivity.
  - apply Forall_app. split; [now apply all_read_tagged |].
    apply (Forall_impl _ (P := has_tag t)); [| assumption].
    intros w Hw. exact (has_tag_tagged _ _ Hw).
Qed.

Lemma compare_text_is_correct_count_witness :
  compare_text lcs_differ (fun o => match o with Py.Str s => s | _ => "" end)
    (Py.Str "a b c d e f g h") (Py.Str "a b x d e f g h") " "
  = Ok (wc_correct (mkWordsCount 7 0 1 1)).
Proof.
  apply (compare_text_is_correct_count lcs_differ
           (fun o => match o with Py.Str s => s | _ => "" end)
           "a b c d e f g h" "a b x d e f g h" " " scenario2_script
           (mkWordsCount 7 0 1 1)); reflexivity.
Defined.

Lemma matches_within_side (p : string -> bool) (dl : list string) :
  (forall w, has_tagb tag_space w = true -> p w = true) ->
  (count_matches dl <= length (map line_token (filter p dl)))%nat.
Proof.
  intros Hp. rewrite length_map. unfold count_matches.
  induction dl as [|w dl IH]; [cbn; lia |].
  cbn [filter]. destruct (has_tagb tag_space w) eqn:E.
  - rewrite (Hp w E). cbn [length]. lia.
  - destruct (p w); cbn [length]; lia.
Qed.

(** X11. With a differ that returns edit scripts, [compare_text] on two
    strings returns a count that is neither negative nor larger than the
    number of tokens of either string. *)
Theorem compare_text_within_both_texts
    (differ_compare : list string -> list string -> list string)
    (py_str : Py.object -> string) (a b : string) :
  (forall s, py_str (Py.Str s) = s) ->
  (forall ta tb, edit_script ta tb (differ_compare ta tb)) ->
  exists ta tb counter,
    Py.split a " " = Ok ta
    /\ Py.split b " " = Ok tb
    /\ compare_text differ_compare py_str (Py.Str a) (Py.Str b) " "
       = Ok counter
    /\ 0 <= counter <= Z.min (Py.len ta) (Py.len tb).
Proof.
  intros Hstr Hdiffer.
  destruct (split_space a) as (ta & Hta & _).
  destruct (split_space b) as (tb & Htb & _).
  destruct (Hdiffer ta tb) as (Htagged & Href & Hhyp).
  exists ta, tb, (Z.of_nat (count_matches (differ_compare ta tb))).
  split; [assumption |]. split; [assumption |]. split.
  - unfold compare_text. rewrite !Hstr, Hta, Htb. cbn [bind].
    rewrite count_loop_tagged; [reflexivity |].
    apply Forall_forall. intros w Hw. exact (all_tagged_in _ _ Htagged Hw).
  - pose proof (matches_within_side on_ref_side (differ_compare ta tb)) as H1.
    pose proof (matches_within_side on_hyp_side (differ_compare ta tb)) as H2.
    fold (ref_side (differ_compare ta tb)) in H1.
    fold (hyp_side (differ_compare ta tb)) in H2.
    rewrite Href in H1. rewrite Hhyp in H2. unfold Py.len.
    assert ((count_matches (differ_compare ta tb) <= length ta)%nat).
    { apply H1. intros w Hw. unfold on_ref_side. now rewrite Hw. }
    assert ((count_matches (differ_compare ta tb) <= length tb)%nat).
    { apply H2. intros w Hw. unfold on_hyp_side. now rewrite Hw. }
    lia.
Qed.

Lemma compare_text_within_both_texts_witness :
  exists ta tb counter,
    Py.split "a b c" " " = Ok ta
    /\ Py.split "b c d e" " " = Ok tb
    /\ compare_text lcs_differ
         (fun o => match o with Py.Str s => s | _ => "" end)
         (Py.Str "a b c") (Py.Str "b c d e") " " = Ok counter
    /\ 0 <= counter <= Z.min (Py.len ta) (Py.len tb).
Proof.
  apply (compare_text_within_both_texts lcs_differ
           (fun o => match o with Py.Str s => s | _ => "" end)
           "a b c" "b c d e").
  - reflexivity.
  - exact lcs_differ_edit_script.
Defined.

(** * The earlier text clean-up *)

Ltac all_ascii c := destruct c as [[] [] [] [] [] [] [] []]; reflexivity.

Lemma lower_char_not_upper (c : ascii) :
  PyStr.is_upper (PyStr.lower_char c) = false.
Proof. all_ascii c. Qed.

Lemma lower_char_fixed (c : ascii) :
  PyStr.is_upper c = false -> PyStr.lower_char c = c.
Proof. unfold PyStr.lower_char. now intros ->. Qed.

Lemma map_chars_fixed (p : ascii -> bool) (f : ascii -> ascii) (s : string) :
  (forall c, p c = true -> f c = c) ->
  PyStr.all_chars p s = true -> PyStr.map_chars f s = s.
Proof.
  intros Hf. induction s as [|c s IH]; [reflexivity |].
  cbn [PyStr.all_chars PyStr.map_chars]. intros H.
  apply andb_true_iff in H as [Hc Hs]. now rewrite (Hf c Hc), IH.
Qed.

Lemma all_chars_map (p : ascii -> bool) (f : ascii -> ascii) (s : string) :
  (forall c, p (f c) = true) -> PyStr.all_chars p (PyStr.map_chars f s) = true.
Proof.
  intros Hf. induction s as [|c s IH]; [reflexivity |].
  cbn [PyStr.all_chars PyStr.map_chars]. now rewrite Hf, IH.
Qed.

Lemma all_chars_map_kept (p : ascii -> bool) (f : ascii -> ascii)
    (s : string) :
  (forall c, p c = true -> p (f c) = true) ->
  PyStr.all_chars p s = true ->
  PyStr.all_chars p (PyStr.map_chars f s) = true.
Proof.
  intros Hf. induction s as [|c s IH]; [reflexivity |].
  cbn [PyStr.all_chars PyStr.map_chars]. intros H.
  apply andb_true_iff in H as [Hc Hs]. now rewrite (Hf c Hc), IH.
Qed.

Lemma all_chars_app (p : ascii -> bool) (s t : string) :
  PyStr.all_chars p (s ++ t)%string
  = PyStr.all_chars p s && PyStr.all_chars p t.
Proof.
  induction s as [|c s IH]; [reflexivity |].
  cbn [String.append PyStr.all_chars]. now rewrite IH, andb_assoc.
Qed.

Lemma all_chars_of_list (p : ascii -> bool) (l : list ascii) :
  PyStr.all_chars p (string_of_list_ascii l) = forallb p l.
Proof.
  induction l as [|c l IH]; [reflexivity |].
  cbn [string_of_list_ascii PyStr.all_chars forallb]. now rewrite IH.
Qed.

Lemma forallb_rev {A : Type} (p : A -> bool) (l : list A) :
  forallb p (rev l) = forallb p l.
Proof.
  induction l as [|a l IH]; [reflexivity |].
  cbn [rev forallb]. rewrite forallb_app, IH. cbn [forallb].
  rewrite andb_true_r. apply andb_comm.
Qed.

(** Every token of [s.split()] is made of characters of [s]. *)
Lemma split_ws_chars (p : ascii -> bool) (s : string) (cur : list ascii) :
  forallb p cur = true -> PyStr.all_chars p s = true ->
  Forall (fun w => PyStr.all_chars p w = true) (Py.split_ws_from s cur).
Proof.
  revert cur; induction s as [|c s IH]; intros cur Hcur Hs.
  - cbn [Py.split_ws_from]. destruct cur as [|a cur]; [constructor |].
    constructor; [| constructor].
    now rewrite all_chars_of_list, forallb_rev.
  - cbn [PyStr.all_chars] in Hs. apply andb_true_iff in Hs as [Hc Hs].
    cbn [Py.split_ws_from]. destruct (Py.is_space c).
    + destruct cur as [|a cur]; [now apply IH |].
      constructor; [now rewrite all_chars_of_list, forallb_rev |].
      now apply IH.
    + apply IH; [| assumption]. cbn [forallb]. now rewrite Hc, Hcur.
Qed.

(** Every token of [s.split()] is a word. *)
Lemma split_ws_words (s : string) (cur : list ascii) :
  forallb (fun c => negb (Py.is_space c)) cur = true ->
  Forall (fun w => is_word w = true) (Py.split_ws_from s cur).
Proof.
  assert (Hword : forall a l,
             forallb (fun c => negb (Py.is_space c)) (a :: l) = true ->
             is_word (string_of_list_ascii (rev (a :: l))) = true).
  { intros a l H. unfold is_word, non_empty.
    rewrite string_of_rev_empty, all_chars_of_list, forallb_rev.
    now rewrite H. }
  revert cur; induction s as [|c s IH]; intros cur Hcur.
  - cbn [Py.split_ws_from]. destruct cur as [|a cur]; [constructor |].
    constructor; [now apply Hword | constructor].
  - cbn [Py.split_ws_from]. destruct (Py.is_space c) eqn:E.
    + destruct cur as [|a cur]; [now apply IH |].
      constructor; [now apply Hword | now apply IH].
    + apply IH. cbn [forallb]. now rewrite E, Hcur.
Qed.

Lemma all_chars_join (p : ascii -> bool) (ws : list string) :
  p " "%char = true ->
  Forall (fun w => PyStr.all_chars p w = true) ws ->
  PyStr.all_chars p (PyStr.join " " ws) = true.
Proof.
  intros Hp H. induction H as [|w ws Hw Hws IH]; [reflexivity |].
  destruct ws as [|w' ws]; [exact Hw |].
  change (PyStr.join " " (w :: w' :: ws))
    with (w ++ " " ++ PyStr.join " " (w' :: ws))%string.
  rewrite !all_chars_app, Hw, IH. cbn [PyStr.all_chars]. now rewrite Hp.
Qed.

(** Reading a word only fills the current piece. *)
Lemma split_ws_from_word (w rest : string) (cur : list ascii) :
  PyStr.all_chars (fun c => negb (Py.is_space c)) w = true ->
  Py.split_ws_from (w ++ rest) cur
  = Py.split_ws_from rest (rev (list_ascii_of_string w) ++ cur).
Proof.
  revert cur; induction w as [|c w IH]; intros cur H; [reflexivity |].
  cbn [PyStr.all_chars] in H. apply andb_true_iff in H as [Hc Hw].
  cbn [String.append Py.split_ws_from list_ascii_of_string rev].
  apply negb_true_iff in Hc. rewrite Hc, (IH _ Hw), <- app_assoc.
  reflexivity.
Qed.

Lemma split_from_word (w rest : string) (cur : list ascii) :
  PyStr.all_chars (fun c => negb (Py.is_space c)) w = true ->
  Py.split_from " " (w ++ rest) 0 cur
  = Py.split_from " " rest 0 (rev (list_ascii_of_string w) ++ cur).
Proof.
  revert cur; induction w as [|c w IH]; intros cur H; [reflexivity |].
  cbn [PyStr.all_chars] in H. apply andb_true_iff in H as [Hc Hw].
  cbn [String.append Py.split_from list_ascii_of_string rev prefix].
  destruct (ascii_dec " " c) as [<- | Hne]; [discriminate Hc |].
  rewrite (IH _ Hw), <- app_assoc. reflexivity.
Qed.

Lemma append_empty_r (s : string) : (s ++ "")%string = s.
Proof. induction s as [|c s IH]; [reflexivity | cbn; now rewrite IH]. Qed.

Lemma string_of_rev_rev (w : string) :
  string_of_list_ascii (rev (rev (list_ascii_of_string w) ++ [])) = w.
Proof.
  now rewrite app_nil_r, rev_involutive, string_of_list_ascii_of_string.
Qed.

Lemma word_chars (w : string) :
  is_word w = true ->
  w <> EmptyString
  /\ PyStr.all_chars (fun c => negb (Py.is_space c)) w = true.
Proof.
  unfold is_word, non_empty. intros H. apply andb_true_iff in H as [H1 H2].
  split; [| assumption]. intros ->. discriminate H1.
Qed.

(** [" ".join(ws).split() == ws] for a list of words. *)
Lemma split_ws_join (ws : list string) :
  Forall (fun w => is_word w = true) ws ->
  Py.split_ws (PyStr.join " " ws) = ws.
Proof.
  unfold Py.split_ws. induction 1 as [|w ws Hw _ IH]; [reflexivity |].
  apply word_chars in Hw as [Hne Hchars].
  assert (Hcur : rev (list_ascii_of_string w) ++ [] <> []).
  { destruct w as [|c w]; [now elim Hne |]. cbn [list_ascii_of_string rev].
    rewrite app_nil_r. intros E. now apply app_eq_nil in E as [_ [=]]. }
  destruct ws as [|w' ws].
  - cbn [PyStr.join]. rewrite <- (append_empty_r w) at 1.
    rewrite (split_ws_from_word w "" [] Hchars). cbn [Py.split_ws_from].
    destruct (rev (list_ascii_of_string w) ++ []) eqn:E; [now elim Hcur |].
    rewrite <- E. now rewrite string_of_rev_rev.
  - change (PyStr.join " " (w :: w' :: ws))
      with (w ++ " " ++ PyStr.join " " (w' :: ws))%string.
    rewrite (split_ws_from_word w _ [] Hchars).
    cbn [String.append Py.split_ws_from]. change (Py.is_space " ") with true.
    cbv iota.
    destruct (rev (list_ascii_of_string w) ++ []) eqn:E; [now elim Hcur |].
    rewrite <- E. now rewrite string_of_rev_rev, IH.
Qed.

(** [" ".join(ws).split(" ") == ws] for a non-empty list of words. *)
Lemma split_space_join (ws : list string) :
  ws <> [] ->
  Forall (fun w => is_word w = true) ws ->
  Py.split_from " " (PyStr.join " " ws) 0 [] = ws.
Proof.
  intros Hne H. induction H as [|w ws Hw _ IH]; [now elim Hne |].
  apply word_chars in Hw as [_ Hchars].
  destruct ws as [|w' ws].
  - cbn [PyStr.join]. rewrite <- (append_empty_r w) at 1.
    rewrite (split_from_word w "" [] Hchars). cbn [Py.split_from].
    now rewrite string_of_rev_rev.
  - change (PyStr.join " " (w :: w' :: ws))
      with (w ++ " " ++ PyStr.join " " (w' :: ws))%string.
    rewrite (split_from_word w _ [] Hchars).
    cbn [String.append Py.split_from prefix].
    destruct (ascii_dec " " " ") as [_ | Hn]; [| now elim Hn].
    replace (prefix "" (PyStr.join " " (w' :: ws))) with true
      by (now destruct (PyStr.join " " (w' :: ws))).
    change (String.length " " - 1)%nat with 0%nat.
    rewrite string_of_rev_rev, IH; [reflexivity | discriminate].
Qed.

Lemma squeeze_spaces_idempotent (s : string) :
  squeeze_spaces (squeeze_spaces s) = squeeze_spaces s.
Proof.
  unfold squeeze_spaces. rewrite split_ws_join; [reflexivity |].
  now apply split_ws_words.
Qed.

Lemma squeeze_spaces_chars (p : ascii -> bool) (s : string) :
  p " "%char = true -> PyStr.all_chars p s = true ->
  PyStr.all_chars p (squeeze_spaces s) = true.
Proof.
  intros Hp Hs. apply all_chars_join; [assumption |].
  now apply split_ws_chars.
Qed.

Lemma map_chars_length (f : ascii -> ascii) (s : string) :
  String.length (PyStr.map_chars f s) = String.length s.
Proof. induction s as [|c s IH]; [reflexivity | cbn; now rewrite IH]. Qed.

Lemma squeezed_is_clean (u : string) :
  PyStr.all_chars (fun c => negb (PyStr.is_punctuation c)) u = true ->
  clean_transcript (squeeze_spaces u)
  /\ (squeeze_spaces u = EmptyString
      \/ Py.split (squeeze_spaces u) " " = Ok (Py.split_ws (squeeze_spaces u))).
Proof.
  intros Hu. split; [split |].
  - now apply squeeze_spaces_chars.
  - apply squeeze_spaces_idempotent.
  - unfold squeeze_spaces.
    pose proof (split_ws_words u [] eq_refl) as Hwords.
    fold (Py.split_ws u) in Hwords.
    rewrite (split_ws_join _ Hwords).
    destruct (Py.split_ws u) as [|w ws] eqn:E; [now left |].
    right. unfold Py.split. rewrite split_space_join;
      [reflexivity | discriminate | assumption].
Qed.

Lemma translate_no_punctuation (s : string) :
  PyStr.all_chars (fun c => negb (PyStr.is_punctuation c))
    (PyStr.translate_punctuation s) = true.
Proof. apply all_chars_map. intros c. all_ascii c. Qed.

(** X12. With [punctuation_free], whatever the other two flags, the two
    transcripts that [__preprocess_data__] returns contain no punctuation
    and are in the normal form of [" ".join(x.split())]; either such a
    transcript is empty or splitting it on single spaces, as [compare_text]
    does, gives exactly its words. The prompt is not squeezed: it keeps its
    length, each punctuation mark being replaced by a space in place. *)
Theorem cleaned_transcripts_are_normalised
    (segment_texts : string -> list string)
    (lowercase asr_string_recomposition : bool) (row : text_row) :
  let r :=
    preprocess_row segment_texts lowercase true asr_string_recomposition row in
  clean_transcript (human_transcript r)
  /\ clean_transcript (asr_transcript r)
  /\ (human_transcript r = EmptyString
      \/ Py.split (human_transcript r) " "
         = Ok (Py.split_ws (human_transcript r)))
  /\ (asr_transcript r = EmptyString
      \/ Py.split (asr_transcript r) " "
         = Ok (Py.split_ws (asr_transcript r)))
  /\ String.length (prompt r) = String.length (prompt row).
Proof.
  cbn zeta. unfold preprocess_row.
  cbn [prompt human_transcript asr_transcript].
  split; [| split; [| split; [| split]]];
    try (apply squeezed_is_clean, translate_no_punctuation).
  unfold PyStr.translate_punctuation. rewrite map_chars_length.
  destruct lowercase; [apply map_chars_length | reflexivity].
Qed.

Lemma lower_is_lower (s : string) :
  PyStr.all_chars (fun c => negb (PyStr.is_upper c)) (PyStr.lower s) = true.
Proof.
  apply all_chars_map. intros c. now rewrite lower_char_not_upper.
Qed.

Lemma lower_fixed (s : string) :
  PyStr.all_chars (fun c => negb (PyStr.is_upper c)) s = true ->
  PyStr.lower s = s.
Proof.
  apply map_chars_fixed. intros c Hc. apply lower_char_fixed.
  now apply negb_true_iff.
Qed.

Lemma translate_fixed (s : string) :
  PyStr.all_chars (fun c => negb (PyStr.is_punctuation c)) s = true ->
  PyStr.translate_punctuation s = s.
Proof.
  apply map_chars_fixed. intros c Hc. apply negb_true_iff in Hc.
  now rewrite Hc.
Qed.

Lemma translate_keeps_lower (s : string) :
  PyStr.all_chars (fun c => negb (PyStr.is_upper c)) s = true ->
  PyStr.all_chars (fun c => negb (PyStr.is_upper c))
    (PyStr.translate_punctuation s) = true.
Proof.
  apply all_chars_map_kept. intros c Hc.
  destruct (PyStr.is_punctuation c); [reflexivity | assumption].
Qed.

(** The clean-up of one cell, with and without the squeeze. *)
Lemma clean_cell_idempotent (lowercase punctuation_free squeeze : bool)
    (s : string) :
  let clean := fun x =>
    let x := if lowercase then PyStr.lower x else x in
    if punctuation_free
    then let x := PyStr.translate_punctuation x in
         if squeeze then squeeze_spaces x else x
    else x in
  clean (clean s) = clean s.
Proof.
  cbn zeta. destruct lowercase, punctuation_free; try reflexivity.
  - set (u := PyStr.translate_punctuation (PyStr.lower s)).
    assert (Hq : PyStr.all_chars (fun c => negb (PyStr.is_upper c)) u = true)
      by (apply translate_keeps_lower, lower_is_lower).
    assert (Hr : PyStr.all_chars (fun c => negb (PyStr.is_punctuation c)) u
                 = true) by apply translate_no_punctuation.
    destruct squeeze.
    + rewrite lower_fixed by (now apply squeeze_spaces_chars).
      rewrite translate_fixed by (now apply squeeze_spaces_chars).
      apply squeeze_spaces_idempotent.
    + now rewrite (lower_fixed u Hq), (translate_fixed u Hr).
  - apply lower_fixed, lower_is_lower.
  - set (u := PyStr.translate_punctuation s).
    assert (Hr : PyStr.all_chars (fun c => negb (PyStr.is_punctuation c)) u
                 = true) by apply translate_no_punctuation.
    destruct squeeze.
    + rewrite translate_fixed by (now apply squeeze_spaces_chars).
      apply squeeze_spaces_idempotent.
    + now rewrite (translate_fixed u Hr).
Qed.

(** X13. [__preprocess_data__] is idempotent on the text of a row: running
    it again with the same [lowercase] and [punctuation_free] flags, and
    without recomposing the transcript a second time, changes nothing. *)
Theorem preprocess_row_idempotent (segment_texts : string -> list string)
    (lowercase punctuation_free asr_string_recomposition : bool)
    (row : text_row) :
  preprocess_row segment_texts lowercase punctuation_free false
    (preprocess_row segment_texts lowercase punctuation_free
       asr_string_recomposition row)
  = preprocess_row segment_texts lowercase punctuation_free
      asr_string_recomposition row.
Proof.
  pose proof (clean_cell_idempotent lowercase punctuation_free true) as Ht.
  pose proof (clean_cell_idempotent lowercase punctuation_free false) as Hp.
  cbn zeta in Ht, Hp. unfold preprocess_row.
  destruct punctuation_free;
    cbn [prompt human_transcript asr_transcript];
    rewrite (Hp (prompt row)), (Ht (human_transcript row)), Ht; reflexivity.
Qed.

(** * The steps of the preprocessor *)

Section StepsFacts.

Variable ext_exn : Type.
Variable DataFrame : Type.
Variable applymap : (Py.object -> Py.object) -> DataFrame -> DataFrame + ext_exn.








Variable PROMPT_TEXT_COL ASR_TRANSCRIPT_COL HUMAN_TRANSCRIPT_COL
  DURATION_COL : string.
Variable df_getitem : DataFrame -> list string -> DataFrame + ext_exn.
Variable df_setitem :
  DataFrame -> list string -> DataFrame -> DataFrame + ext_exn.
Variable fillna_blank : DataFrame -> DataFrame.
Variable feature_table :
  DataFrame -> string -> string -> string -> DataFrame + ext_exn.
Variable recompose_asr_string_from_dict numbers_to_literals
  remove_punctuation_from_string : Py.object -> Py.object.
Variable py_str : Py.object -> string.

Let run_text := preprocess_text ext_exn DataFrame applymap fillna_blank
  recompose_asr_string_from_dict numbers_to_literals
  remove_punctuation_from_string py_str.

Let run_data := preprocess_data ext_exn PROMPT_TEXT_COL ASR_TRANSCRIPT_COL
  HUMAN_TRANSCRIPT_COL DURATION_COL DataFrame df_getitem df_setitem applymap
  fillna_blank feature_table recompose_asr_string_from_dict
  numbers_to_literals remove_punctuation_from_string py_str.





Let run_body := preprocess_data_body ext_exn PROMPT_TEXT_COL
  ASR_TRANSCRIPT_COL HUMAN_TRANSCRIPT_COL DURATION_COL DataFrame df_getitem
  df_setitem applymap fillna_blank feature_table
  recompose_asr_string_from_dict numbers_to_literals
  remove_punctuation_from_string py_str.



(** X15. [preprocess_text] only works inside [preprocess_data]. Called on a
    new instance, whose iterator is still [None], it raises the [TypeError]
    of [next(None)] as soon as one of its four flags holds, and called after
    a finished [preprocess_data], whose iterator is exhausted, it raises
    [StopIteration]; in both cases nothing has been applied or logged. With
    its four flags off it returns the frame with the missing cells filled. *)
Theorem preprocess_text_needs_a_fresh_iterator (self : preprocessor)
    (data : DataFrame) (tl rp cn ar verbose : bool) (w : world) :
  steps_iter w = None \/ steps_iter w = Some [] ->
  run_text self data tl rp cn ar verbose w
  = if ar || tl || cn || rp
    then (Raised (match steps_iter w with
                  | None => NotAnIterator
                  | Some _ => StopIteration
                  end), w)
    else (Done (fillna_blank data), w).
Proof.
  intros Hit. unfold run_text, preprocess_text, text_step, step_bind,
    compute_and_log_step_msg, step_ret.
  destruct Hit as [Hit | Hit]; destruct ar, tl, cn, rp; rewrite ?Hit;
    reflexivity.
Qed.

Lemma quiet_bind {A B : Type} (c : step ext_exn A) (k : A -> step ext_exn B) :
  quiet c -> (forall a, quiet (k a)) -> quiet (step_bind ext_exn c k).
Proof.
  intros Hc Hk w Hoff. unfold step_bind. specialize (Hc w Hoff).
  destruct (c w) as [[a|r] w']; cbn [snd] in *; [| assumption].
  destruct Hc as [Hl Hs]. destruct (Hk a w' Hl) as [Hl' Hs'].
  split; congruence.
Qed.

Lemma quiet_lift {A : Type} (o : A + ext_exn) : quiet (step_lift ext_exn o).
Proof. intros w Hoff. unfold step_lift. destruct o; now split. Qed.

Lemma quiet_ret {A : Type} (a : A) : quiet (step_ret ext_exn a).
Proof. intros w Hoff. now split. Qed.

Lemma quiet_step_msg (self : preprocessor) (verbose : bool) :
  quiet (compute_and_log_step_msg ext_exn self verbose).
Proof.
  intros w Hoff. unfold compute_and_log_step_msg.
  destruct (steps_iter w) as [[|[k name] rest]|]; try (now split).
  destruct verbose; [| now split]. unfold logger_info.
  cbn [logger_enabled]. rewrite Hoff. now split.
Qed.

Lemma quiet_text_step (self : preprocessor) (verbose flag : bool)
    (f : Py.object -> Py.object) (data : DataFrame) :
  quiet (text_step ext_exn DataFrame applymap self verbose flag f data).
Proof.
  unfold text_step. destruct flag; [| apply quiet_ret].
  apply quiet_bind; [apply quiet_step_msg | intros _; apply quiet_lift].
Qed.

Lemma quiet_disable_unless (verbose : bool) :
  quiet (disable_unless ext_exn verbose).
Proof.
  intros w Hoff. unfold disable_unless. destruct verbose; now split.
Qed.

Lemma quiet_preprocess_text (self : preprocessor) (data : DataFrame)
    (tl rp cn ar verbose : bool) :
  quiet (run_text self data tl rp cn ar verbose).
Proof.
  unfold run_text, preprocess_text.
  repeat (apply quiet_bind; [apply quiet_text_step | intros ?]).
  apply quiet_ret.
Qed.

Lemma quiet_body (self : preprocessor) (df : DataFrame) (verbose : bool) :
  quiet (run_body self df verbose).
Proof.
  unfold run_body, preprocess_data_body.
  apply quiet_bind; [apply quiet_lift | intros ?].
  apply quiet_bind; [apply quiet_preprocess_text | intros ?].
  apply quiet_bind; [apply quiet_lift | intros ?].
  apply quiet_bind; [apply quiet_step_msg | intros ?].
  apply quiet_bind; [apply quiet_lift | intros ?].
  apply quiet_bind; [apply quiet_disable_unless | intros ?].
  apply quiet_ret.
Qed.

Lemma quiet_preprocess_data (self : preprocessor) (df : DataFrame)
    (verbose : bool) :
  quiet (run_data self df verbose).
Proof.
  unfold run_data, preprocess_data.
  apply quiet_bind; [intros w Hoff; now split | intros ?].
  apply quiet_bind; [apply quiet_disable_unless | intros ?].
  apply quiet_body.
Qed.

(** X16. The logger is switched off and never on again. A call of
    [preprocess_data] with [verbose] false passes no message and leaves the
    logger of the module off, whether it returns or raises; every later call
    of [preprocess_data], on any instance and frame and also with [verbose]
    true, then passes no message either and leaves the logger off. *)
Theorem quiet_call_silences_later_calls (self self' : preprocessor)
    (df df' : DataFrame) (verbose' : bool) (w : world) :
  let w1 := snd (run_data self df false w) in
  let w2 := snd (run_data self' df' verbose' w1) in
  (logger_enabled w1 = false /\ sink w1 = sink w)
  /\ (logger_enabled w2 = false /\ sink w2 = sink w).
Proof.
  intros w1 w2.
  assert (H1 : logger_enabled w1 = false /\ sink w1 = sink w).
  { subst w1. unfold run_data, preprocess_data, step_bind at 1 2,
      set_steps_iter, disable_unless.
    apply (quiet_body self df false
             (logger_disable
                (mkWorld (Some (enumerate_from 0 (steps self)))
                   (logger_enabled w) (sink w)))).
    reflexivity. }
  split; [exact H1 |].
  destruct H1 as [Hl Hs].
  destruct (quiet_preprocess_data self' df' verbose' w1 Hl) as [Hl' Hs'].
  split; [exact Hl' | exact (eq_trans Hs' Hs)].
Qed.

(** X17. The message passed before a block does not always name that block:
    the dictionary of [__init__] lists remove_punctuation before
    convert_num2words, and [preprocess_text] converts the numbers first. On
    a new instance with both flags on, in a verbose call of
    [preprocess_data] with the logger on, when the blocks before succeed and
    [numbers_to_literals] raises, the exception leaves [preprocess_text]
    and the last message passed is the one of the step named
    remove_punctuation. *)
Theorem failing_num2words_is_logged_as_remove_punctuation (fl : step_flags)
    (grade : bool) (data da db : DataFrame) (e : ext_exn) (w : world) :
  convert_num2words fl = true ->
  remove_punctuation fl = true ->
  steps_iter w = Some (enumerate_from 0 (steps (new_preprocessor fl grade))) ->
  logger_enabled w = true ->
  (if asr_string_recomposition fl
   then applymap recompose_asr_string_from_dict data else inl data) = inl da ->
  (if to_lowercase fl
   then applymap (str_lower py_str) da else inl da) = inl db ->
  applymap numbers_to_literals db = inr e ->
  exists w',
    run_text (new_preprocessor fl grade) data (to_lowercase fl)
      (remove_punctuation fl) (convert_num2words fl)
      (asr_string_recomposition fl) true w
    = (Raised (External e), w')
    /\ sink w'
       = sink w
         ++ step_msgs (new_preprocessor fl grade)
              (firstn (blocks_run (to_lowercase fl) false false
                         (asr_string_recomposition fl))
                 (enumerate_from 0 (steps (new_preprocessor fl grade))))
         ++ [step_msg (new_preprocessor fl grade)
               (Z.of_nat (blocks_run (to_lowercase fl) false false
                            (asr_string_recomposition fl)))
               "remove_punctuation"].
Proof.
  destruct fl as [ar tl rp cn]. destruct w as [it on sk].
  cbn [asr_string_recomposition to_lowercase remove_punctuation
       convert_num2words steps_iter logger_enabled sink].
  intros -> -> -> -> Ha Hb Hc.
  unfold run_text, preprocess_text, text_step.
  destruct ar, tl.
  all: try (injection Ha as <-); try (injection Hb as <-).
  all: unfold step_bind, compute_and_log_step_msg, step_lift, step_ret,
         logger_info.
  all: cbn [enumerate_from steps new_preprocessor init_steps
            preprocessing_steps filter map fst snd app
            asr_string_recomposition to_lowercase remove_punctuation
            convert_num2words steps_iter logger_enabled sink blocks_run
            Nat.add firstn step_msgs].
  all: rewrite ?Ha; cbn [steps_iter logger_enabled sink].
  all: rewrite ?Hb; cbn [steps_iter logger_enabled sink].
  all: rewrite ?Hc.
  all: eexists; split; [reflexivity |].
  all: cbn [sink]; rewrite <- ?app_assoc; reflexivity.
Qed.

End StepsFacts.

Lemma preprocess_text_needs_a_fresh_iterator_witness :
  preprocess_text Empty_set (list Py.object)
    (fun f d => inl (map f d)) (fun d => d) (fun x => x) (fun x => x)
    (fun x => x) (fun _ => "")
    (new_preprocessor (mkStepFlags false true true true) false)
    [Py.Str "One, two"] true true true false true (world_init true [])
  = (Raised NotAnIterator, world_init true []).
Proof.
  apply (preprocess_text_needs_a_fresh_iterator Empty_set (list Py.object)
           (fun f d => inl (map f d)) (fun d => d) (fun x => x) (fun x => x)
           (fun x => x) (fun _ => "")
           (new_preprocessor (mkStepFlags false true true true) false)
           [Py.Str "One, two"] true true true false true (world_init true [])).
  left. reflexivity.
Defined.

Lemma failing_num2words_is_logged_as_remove_punctuation_witness :
  exists w',
    preprocess_text unit (list Py.object)
      (fun f d => match f (Py.Int 0) with
                  | Py.Int 1 => inr tt
                  | _ => inl (map f d)
                  end)
      (fun d => d) (fun x => x) (fun _ => Py.Int 1) (fun x => x)
      (fun _ => "")
      (new_preprocessor (mkStepFlags false true true true) false)
      [Py.Str "One, two"] true true true false true
      (mkWorld
         (Some [(0, "to_lowercase"); (1, "remove_punctuation");
                (2, "convert_num2words"); (3, "compute_numerical_features")])
         true [])
    = (Raised (External tt), w')
    /\ sink w'
       = ["[LCSPreprocessor] (step 1 of 4): to_lowercase";
          "[LCSPreprocessor] (step 2 of 4): remove_punctuation"].
Proof.
  apply (failing_num2words_is_logged_as_remove_punctuation unit
           (list Py.object)
           (fun f d => match f (Py.Int 0) with
                       | Py.Int 1 => inr tt
                       | _ => inl (map f d)
                       end)
           (fun d => d) (fun x => x) (fun _ => Py.Int 1) (fun x => x)
           (fun _ => "")
           (mkStepFlags false true true true) false
           [Py.Str "One, two"] [Py.Str "One, two"] [Py.Str ""] tt
           (mkWorld
              (Some [(0, "to_lowercase"); (1, "remove_punctuation");
                     (2, "convert_num2words");
                     (3, "compute_numerical_features")])
              true [])); reflexivity.
Defined.

(** X18. In grade mode the labels handed to the selection of the text
    columns are the prompt and transcript columns followed by the characters
    of the name of the human transcript column, one label each: [+=] with a
    string on its right extends the list by the characters of the string.
    The name itself is among the labels only when it is one of the two
    other names or one character long. *)
Theorem grade_mode_adds_characters_as_labels
    (PROMPT_TEXT_COL ASR_TRANSCRIPT_COL HUMAN_TRANSCRIPT_COL : string)
    (self : preprocessor) :
  grade_mode self = true ->
  let cols := text_cols PROMPT_TEXT_COL ASR_TRANSCRIPT_COL
                HUMAN_TRANSCRIPT_COL self in
  firstn 2 cols = [PROMPT_TEXT_COL; ASR_TRANSCRIPT_COL]
  /\ length cols = (2 + String.length HUMAN_TRANSCRIPT_COL)%nat
  /\ (forall c, In c (skipn 2 cols) -> String.length c = 1%nat)
  /\ (In HUMAN_TRANSCRIPT_COL cols <->
      HUMAN_TRANSCRIPT_COL = PROMPT_TEXT_COL
      \/ HUMAN_TRANSCRIPT_COL = ASR_TRANSCRIPT_COL
      \/ String.length HUMAN_TRANSCRIPT_COL = 1%nat).
Proof.
  intros Hg cols. subst cols. unfold text_cols. rewrite Hg.
  cbn [app firstn skipn length].
  assert (Hchars : forall s c,
             In c (map (fun a => String a EmptyString)
                     (list_ascii_of_string s)) ->
             String.length c = 1%nat).
  { intros s c Hin. apply in_map_iff in Hin as (a & <- & _). reflexivity. }
  split; [reflexivity |]. split.
  { rewrite length_map. f_equal. f_equal.
    induction HUMAN_TRANSCRIPT_COL as [|a s IH]; [reflexivity |].
    cbn [list_ascii_of_string length String.length]. now rewrite IH. }
  split; [exact (Hchars HUMAN_TRANSCRIPT_COL) |].
  split.
  - intros [H | [H | H]]; [left; congruence | right; left; congruence |].
    right; right. exact (Hchars _ _ H).
  - intros [H | [H | H]]; [left; congruence | right; left; congruence |].
    right; right.
    destruct HUMAN_TRANSCRIPT_COL as [|a [|b s]]; try discriminate.
    cbn [list_ascii_of_string map]. now left.
Qed.

Lemma grade_mode_adds_characters_as_labels_witness :
  let cols := text_cols "prompt" "asr_transcript" "human_transcript"
                (new_preprocessor (mkStepFlags false true true true) true) in
  firstn 2 cols = ["prompt"; "asr_transcript"]
  /\ length cols = (2 + String.length "human_transcript")%nat
  /\ (forall c, In c (skipn 2 cols) -> String.length c = 1%nat)
  /\ (In "human_transcript" cols <->
      "human_transcript" = "prompt"
      \/ "human_transcript" = "asr_transcript"
      \/ String.length "human_transcript" = 1%nat).
Proof.
  apply (grade_mode_adds_characters_as_labels "prompt" "asr_transcript"
           "human_transcript"
           (new_preprocessor (mkStepFlags false true true true) true)).
  reflexivity.
Defined.
